(** * riana: peak integration ([integrate_peaks.py], class [Peaks])

    A shallow embedding of the [Peaks] class and the properties of the
    isotopologue tracer, the trace integrator and the batch wrapper.

    Modelling conventions.
    - Python floats are modelled twice.  The class as a whole is embedded
      over exact rationals ([Qc], the canonical rationals, so that equality
      is Leibniz equality); the statements proved on that embedding are
      those that do not depend on rounding.  The three steps whose outcome
      does depend on it (the retention-time test, the tolerance band and the
      floor of the integrated area) are embedded again in module [B64] over
      binary64 ([PrimFloat]), with their rounding, infinities and NaN.
    - Python exceptions are values of [PyErr]; a computation that may raise
      has type [Res A].
    - [rt_idx] is iterated with [.items()], so it is an association list in
      insertion order; [msdata] and [mslvl_idx] are only looked up, so they
      are finite maps.
    - [self] is a record; an assignment to a field is a record update that
      is passed on explicitly. *)

From Stdlib Require Import Floats.
From Stdlib Require Import QArith Qcanon Qcabs.
From stdpp Require Import base decidable option list numbers gmap strings.

Local Open Scope Z_scope.

(** ** Exceptions and the error monad *)

Inductive PyErr : Type :=
  | AssertionError (msg : string)
  | ValueError (msg : string)
  | TypeError (msg : string)
  | ZeroDivisionError (msg : string)
  | NameError (name : string)
  | KeyError (key : Z).

Global Instance PyErr_eq_dec : EqDecision PyErr.
Proof. solve_decision. Defined.

(** [LookupError] is the base class of [KeyError] and [IndexError]. *)
Definition is_LookupError (e : PyErr) : bool :=
  match e with
  | KeyError _ => true
  | _ => false
  end.

Inductive Res (A : Type) : Type :=
  | Ok (a : A)
  | Raise (e : PyErr).
Arguments Ok {A} a.
Arguments Raise {A} e.

Global Instance Res_eq_dec {A} `{EqDecision A} : EqDecision (Res A).
Proof. solve_decision. Defined.

Global Instance Res_ret : MRet Res := @Ok.
Global Instance Res_bind : MBind Res := λ A B k c,
  match c with
  | Ok a => k a
  | Raise e => Raise e
  end.
Global Instance Res_fmap : FMap Res := λ A B f c,
  match c with
  | Ok a => Ok (f a)
  | Raise e => Raise e
  end.

Definition is_Ok {A} (c : Res A) : Prop := ∃ a, c = Ok a.

(** [assert cond, msg] *)
Definition py_assert (cond : bool) (msg : string) : Res unit :=
  if cond then Ok () else Raise (AssertionError msg).

(** A list comprehension [[x for x in l if c(x)]] whose condition may raise:
    the elements are visited in order and the first exception escapes. *)
Fixpoint filterM {A} (c : A → Res bool) (l : list A) : Res (list A) :=
  match l with
  | [] => Ok []
  | x :: l' =>
      b ← c x;
      r ← filterM c l';
      mret (if b : bool then x :: r else r)
  end.

(** A [for] loop over [l] whose body updates an accumulator and may raise. *)
Fixpoint for_each {A S} (l : list A) (body : A → S → Res S) (s : S) : Res S :=
  match l with
  | [] => Ok s
  | x :: l' => s' ← body x s; for_each l' body s'
  end.

(** ** Numbers *)

Local Open Scope Qc_scope.
Local Open Scope list_scope.

(** A decimal literal [n / d]. *)
Definition dec (n : Z) (d : positive) : Qc := Q2Qc (n # d).

(** [x / y] on floats. *)
Definition ZeroDivisionError_float : PyErr :=
  ZeroDivisionError "float division by zero".

Definition py_div (x y : Qc) : Res Qc :=
  if decide (y = 0) then Raise ZeroDivisionError_float else Ok (x / y).

(** [x - y] where [y] may be [None]. *)
Definition TypeError_sub_None : PyErr :=
  TypeError "unsupported operand type(s) for -: 'float' and 'NoneType'".

Definition py_sub (x : Qc) (y : option Qc) : Res Qc :=
  match y with
  | Some y => Ok (x - y)
  | None => Raise TypeError_sub_None
  end.

(** [max(a, b)] on two numbers: the first argument is kept unless the
    second is strictly greater. *)
Definition py_max2 (a b : Qc) : Qc := if decide (a < b) then b else a.

(** [sum(l)] *)
Definition py_sum (l : list Qc) : Qc := foldl Qcplus 0 l.

(** [max(range(n))]; the message of the [ValueError] is the one of the
    Python 3 releases before 3.12. *)
Definition py_max_range (n : nat) : Res nat :=
  match n with
  | O => Raise (ValueError "max() arg is an empty sequence")
  | S m => Ok m
  end.

(** ** Dictionaries in insertion order *)

Fixpoint dict_get {V} (d : list (Z * V)) (k : Z) : option V :=
  match d with
  | [] => None
  | (k', v) :: d' => if decide (k' = k) then Some v else dict_get d' k
  end.

(** [for x in v] where [v] may be [None]. *)
Definition py_iter {A} (v : option (list A)) : Res (list A) :=
  match v with
  | Some l => Ok l
  | None => Raise (TypeError "'NoneType' object is not iterable")
  end.

(** Reading a float-valued name: the names bound in the enclosing function
    are searched first; the module binds no number under any name, so a miss
    is a [NameError]. *)
Fixpoint load_name (locals : list (string * Qc)) (name : string) : Res Qc :=
  match locals with
  | [] => Raise (NameError name)
  | (n, v) :: locals' => if decide (n = name) then Ok v else load_name locals' name
  end.

(** ** Data model *)

(** A row of the identification table ([self.id]). *)
Record IdRow : Type := mkIdRow {
  peptide_mass : Qc;
  scan : Z;
  charge : Qc;
  pep_id : string;
}.

(** An entry of [intensity_over_time]:
    [[nearbyScan_rt, iso, matching_int, m/z]]. *)
Definition Sample : Type := Qc * Z * Qc * Qc.

(** Elements of a result row [[index, pep_id, m0, m1, ...]]. *)
Inductive PyVal : Type :=
  | VInt (n : Z)
  | VStr (s : string)
  | VFloat (q : Qc).

Global Instance PyVal_eq_dec : EqDecision PyVal.
Proof. solve_decision. Defined.

Record Peaks : Type := mkPeaks {
  msdata : gmap Z (list (Qc * Qc));
  rt_idx : list (Z * Qc);
  mslvl_idx : gmap Z Z;
  id : list IdRow;
  iso_to_do : list Z;
  rt_tolerance : Qc;
  mass_tolerance : Qc;
  njobs : Z;
  intensity_over_time : list Sample;
  isotope_intensities : list Qc;
}.

(** [Peaks.__init__] *)
Definition init (msdata : gmap Z (list (Qc * Qc))) (rt_idx : list (Z * Qc))
    (mslvl_idx : gmap Z Z) : Peaks :=
  {| msdata := msdata; rt_idx := rt_idx; mslvl_idx := mslvl_idx;
     id := []; iso_to_do := [];
     rt_tolerance := dec 30 1; mass_tolerance := dec 100 1000000;
     njobs := 10; intensity_over_time := []; isotope_intensities := [] |}.

Definition set_iso_to_do (self : Peaks) (v : list Z) : Peaks :=
  {| msdata := msdata self; rt_idx := rt_idx self; mslvl_idx := mslvl_idx self;
     id := id self; iso_to_do := v;
     rt_tolerance := rt_tolerance self; mass_tolerance := mass_tolerance self;
     njobs := njobs self; intensity_over_time := intensity_over_time self;
     isotope_intensities := isotope_intensities self |}.

Definition set_rt_tolerance (self : Peaks) (v : Qc) : Peaks :=
  {| msdata := msdata self; rt_idx := rt_idx self; mslvl_idx := mslvl_idx self;
     id := id self; iso_to_do := iso_to_do self;
     rt_tolerance := v; mass_tolerance := mass_tolerance self;
     njobs := njobs self; intensity_over_time := intensity_over_time self;
     isotope_intensities := isotope_intensities self |}.

Definition set_mass_tolerance (self : Peaks) (v : Qc) : Peaks :=
  {| msdata := msdata self; rt_idx := rt_idx self; mslvl_idx := mslvl_idx self;
     id := id self; iso_to_do := iso_to_do self;
     rt_tolerance := rt_tolerance self; mass_tolerance := v;
     njobs := njobs self; intensity_over_time := intensity_over_time self;
     isotope_intensities := isotope_intensities self |}.

Definition associate_id (self : Peaks) (id_df : list IdRow) : Peaks :=
  {| msdata := msdata self; rt_idx := rt_idx self; mslvl_idx := mslvl_idx self;
     id := id_df; iso_to_do := iso_to_do self;
     rt_tolerance := rt_tolerance self; mass_tolerance := mass_tolerance self;
     njobs := njobs self; intensity_over_time := intensity_over_time self;
     isotope_intensities := isotope_intensities self |}.

(** The assignment [self.intensity_over_time = v]. *)
Definition set_intensity_over_time (self : Peaks) (v : list Sample) : Peaks :=
  {| msdata := msdata self; rt_idx := rt_idx self; mslvl_idx := mslvl_idx self;
     id := id self; iso_to_do := iso_to_do self;
     rt_tolerance := rt_tolerance self; mass_tolerance := mass_tolerance self;
     njobs := njobs self; intensity_over_time := v;
     isotope_intensities := isotope_intensities self |}.

(** ** [get_isotopes_from_amrt] *)

(** Proton mass from NIST *)
Definition proton : Qc := dec 1007825 1000000.

(** [peptide_prec = (peptide_am + (z * proton)) / z] *)
Definition peptide_prec (peptide_am z : Qc) : Res Qc :=
  py_div (peptide_am + z * proton) z.

(** [self.mslvl_idx[i]] *)
Definition mslvl_getitem (self : Peaks) (i : Z) : Res Z :=
  match mslvl_idx self !! i with
  | Some lvl => Ok lvl
  | None => Raise (KeyError i)
  end.

(** The condition of the comprehension that selects the nearby scans:
    [abs(rt - peptide_rt) <= self.rt_tolerance and self.mslvl_idx[i] == 1]. *)
Definition nearby_cond (self : Peaks) (peptide_rt : option Qc)
    (item : Z * Qc) : Res bool :=
  let '(i, rt) := item in
  d ← py_sub rt peptide_rt;
  if decide (Qcabs d ≤ rt_tolerance self) then
    lvl ← mslvl_getitem self i;
    mret (bool_decide (lvl = 1%Z))
  else mret false.

Definition nearby_scans (self : Peaks) (peptide_rt : option Qc) :
    Res (list (Z * Qc)) :=
  filterM (nearby_cond self peptide_rt) (rt_idx self).

(** [peptide_prec_iso_am = peptide_prec + (iso * proton / z)] *)
Definition peptide_prec_iso_am (prec : Qc) (iso : Z) (z : Qc) : Res Qc :=
  t ← py_div (Qc_of_Z iso * proton) z;
  mret (prec + t).

Definition upper (self : Peaks) (am : Qc) : Qc :=
  am + am * (mass_tolerance self / 2).

Definition lower (self : Peaks) (am : Qc) : Qc :=
  am - am * (mass_tolerance self / 2).

(** [sum([I for mz_value, I in peaks if upper > mz_value > lower])] *)
Definition matching_int (up lo : Qc) (peaks : list (Qc * Qc)) : Qc :=
  py_sum (snd <$> filter (λ p, p.1 < up ∧ lo < p.1) peaks).

(** Lines 161 to 167 for one scan and one isotopologue: the theoretical
    m/z and the summed intensity inside the band around it. *)
Definition iso_matching (self : Peaks) (prec z : Qc) (nearbyScan_id : Z)
    (iso : Z) : Res (Qc * Qc) :=
  am ← peptide_prec_iso_am prec iso z;
  peaks ← py_iter (msdata self !! nearbyScan_id);
  mret (am, matching_int (upper self am) (lower self am) peaks).

(** The body of the inner loop.  The element appended at line 169 reads the
    name [peptide_prec_isotopomer_am]; the float-valued names the function
    has bound at that point are listed as [locals]. *)
Definition iso_body (self : Peaks) (peptide_am prec z : Qc)
    (nearbyScan : Z * Qc) (iso : Z) (iot : list Sample) : Res (list Sample) :=
  let '(nearbyScan_id, nearbyScan_rt) := nearbyScan in
  '(am, mi) ← iso_matching self prec z nearbyScan_id iso;
  let locals :=
    [("peptide_am", peptide_am); ("z", z); ("proton", proton);
     ("peptide_prec", prec); ("nearbyScan_rt", nearbyScan_rt);
     ("peptide_prec_iso_am", am); ("upper", upper self am);
     ("lower", lower self am); ("matching_int", mi)] in
  mz ← load_name locals "peptide_prec_isotopomer_am";
  mret (iot ++ [(nearbyScan_rt, iso, mi, mz)]).

Definition get_isotopes_from_amrt (self : Peaks) (peptide_am : Qc)
    (peptide_scan : Z) (z : Qc) : Res (list Sample) :=
  let peptide_rt := dict_get (rt_idx self) peptide_scan in
  prec ← peptide_prec peptide_am z;
  nearby ← nearby_scans self peptide_rt;
  for_each nearby
    (λ nearbyScan iot,
       for_each (iso_to_do self) (iso_body self peptide_am prec z nearbyScan) iot)
    [].

(** ** [integrate_isotope_intensity] *)

(** [[[rt, I] for rt, iso, I, mz_value in self.intensity_over_time if iso == j]] *)
Definition isotopomer_profile (iot : list Sample) (j : Z) : list (Qc * Qc) :=
  (λ s : Sample, let '(rt, iso, I', mz_value) := s in (rt, I'))
    <$> filter (λ s : Sample, s.1.1.2 = j) iot.

(** [numpy.diff]: [x[1:] - x[:-1]] *)
Definition np_diff (x : list Qc) : list Qc :=
  zip_with Qcminus (tail x) (removelast x).

(** [scipy.integrate.trapz(y, x)]:
    [(diff(x) * (y[1:] + y[:-1]) / 2.0).sum()] *)
Definition trapz (y x : list Qc) : Qc :=
  py_sum (zip_with (λ d s, d * s / 2) (np_diff x)
            (zip_with Qcplus (tail y) (removelast y))).

(** The area computed by one round of the loop over [self.iso_to_do]. *)
Definition iso_area (self : Peaks) (j : Z) : Qc :=
  match isotopomer_profile (intensity_over_time self) j with
  | [] => 0
  | profile => py_max2 (trapz (profile.*2) (profile.*1)) 0
  end.

Definition integrate_isotope_intensity (self : Peaks) : list Qc :=
  foldl (λ iso_intensity j, iso_intensity ++ [iso_area self j]) [] (iso_to_do self).

(** ** [get_isotopes_from_amrt_wrapper] *)

(** [self.id.loc[index, ...]] on a table with the default row labels. *)
Definition loc (self : Peaks) (index : nat) : Res IdRow :=
  match id self !! index with
  | Some row => Ok row
  | None => Raise (KeyError (Z.of_nat index))
  end.

(** The wrapper returns the updated object, the lines it printed and the
    result row. *)
Definition get_isotopes_from_amrt_wrapper (self : Peaks) (index : nat) :
    Res (Peaks * list string * list PyVal) :=
  row ← loc self index;
  iot ← get_isotopes_from_amrt self (peptide_mass row) (scan row) (charge row);
  let self' := set_intensity_over_time self iot in
  let out := match iot with
             | [] => ["Empty intensity over time"]
             | _ => []
             end in
  mret (self', out,
        [VInt (Z.of_nat index)] ++ [VStr (pep_id row)]
          ++ (VFloat <$> integrate_isotope_intensity self')).

(** ** [get_isotopes_from_amrt_multiwrapper] *)

(** [Pool(processes=n)] refuses fewer than one process. *)
Definition Pool (processes : Z) : Res unit :=
  if decide (processes < 1)%Z
  then Raise (ValueError "Number of processes must be at least 1")
  else Ok ().

(** The row a worker sends back for one index: every task runs on its own
    copy of [self], so only the result row reaches the caller. *)
Definition worker (self : Peaks) (index : nat) : Res (list PyVal) :=
  r ← get_isotopes_from_amrt_wrapper self index;
  mret r.2.

(** [cpu_count] is what [multiprocessing.cpu_count()] returns.  [p.imap]
    yields its results lazily and in input order, so an exception of a task
    surfaces when [list] reaches it, after [max(loop_count)] was evaluated. *)
Definition get_isotopes_from_amrt_multiwrapper (cpu_count : Z) (self : Peaks)
    (num_thread chunk_size : Z) : Res (list (list PyVal)) :=
  py_assert (num_thread >=? cpu_count - 1)%Z
    "Number of threads exceeded CPU count";;
  py_assert (chunk_size >? 0)%Z
    "Chunk size must be a positive integer";;
  let loop_count := seq 0 (length (id self)) in
  let chunk_size := Z.max chunk_size 250 in
  Pool num_thread;;
  total ← py_max_range (length (id self));
  mapM (worker self) loop_count.

(** ** The rounding steps in binary64 *)

(** The exact value of a finite float. *)
Definition exact (x : float) : option Qc :=
  match Prim2SF x with
  | S754_zero _ => Some 0
  | S754_finite s m e =>
      Some (Q2Qc ((((if s then Z.neg m else Z.pos m) # 1) * Qpower 2 e)%Q))
  | _ => None
  end.

Module B64.

(** An entry of [intensity_over_time]. *)
Definition Sample : Type := float * Z * float * float.

(** The fields of [self] that the three steps read. *)
Record Peaks : Type := mkPeaks {
  msdata : gmap Z (list (float * float));
  rt_idx : list (Z * float);
  mslvl_idx : gmap Z Z;
  iso_to_do : list Z;
  rt_tolerance : float;
  mass_tolerance : float;
  intensity_over_time : list Sample;
}.

(** [x - y] where [y] may be [None]. *)
Definition py_sub (x : float) (y : option float) : Res float :=
  match y with
  | Some y => Ok (x - y)%float
  | None => Raise TypeError_sub_None
  end.

(** [self.mslvl_idx[i]] *)
Definition mslvl_getitem (self : Peaks) (i : Z) : Res Z :=
  match mslvl_idx self !! i with
  | Some lvl => Ok lvl
  | None => Raise (KeyError i)
  end.

(** [abs(rt - peptide_rt) <= self.rt_tolerance and self.mslvl_idx[i] == 1] *)
Definition nearby_cond (self : Peaks) (peptide_rt : option float)
    (item : Z * float) : Res bool :=
  let '(i, rt) := item in
  d ← py_sub rt peptide_rt;
  if (abs d <=? rt_tolerance self)%float then
    lvl ← mslvl_getitem self i;
    mret (bool_decide (lvl = 1%Z))
  else mret false.

Definition nearby_scans (self : Peaks) (peptide_rt : option float) :
    Res (list (Z * float)) :=
  filterM (nearby_cond self peptide_rt) (rt_idx self).

(** [upper = peptide_prec_iso_am + (peptide_prec_iso_am * (self.mass_tolerance/2))] *)
Definition upper (self : Peaks) (am : float) : float :=
  (am + am * (mass_tolerance self / 2))%float.

(** [lower = peptide_prec_iso_am - (peptide_prec_iso_am * (self.mass_tolerance/2))] *)
Definition lower (self : Peaks) (am : float) : float :=
  (am - am * (mass_tolerance self / 2))%float.

(** [sum(l)]: the additions run from left to right, starting from 0. *)
Definition py_sum (l : list float) : float := foldl PrimFloat.add 0%float l.

(** [sum([I for mz_value, I in peaks if upper > mz_value > lower])] *)
Definition matching_int (up lo : float) (peaks : list (float * float)) : float :=
  py_sum (snd <$> filter (λ p, (p.1 <? up)%float = true ∧ (lo <? p.1)%float = true) peaks).


(** [[[rt, I] for rt, iso, I, mz_value in self.intensity_over_time if iso == j]] *)
Definition isotopomer_profile (iot : list Sample) (j : Z) : list (float * float) :=
  (λ s : Sample, let '(rt, iso, I', mz_value) := s in (rt, I'))
    <$> filter (λ s : Sample, s.1.1.2 = j) iot.

(** [max(a, b)] on two numbers: the first argument is kept unless the
    second is strictly greater, so a NaN first argument is kept. *)
Definition py_max2 (a b : float) : float := if (a <? b)%float then b else a.

(** [numpy.diff] and the trapezoid rule, as in the exact embedding.  The
    products are added from left to right here; the library's own order of
    addition differs on long arrays, and no statement below depends on it:
    the integrator takes the rule as a parameter, and this instance is used
    on profiles of two and three points only. *)
Definition np_diff (x : list float) : list float :=
  zip_with PrimFloat.sub (tail x) (removelast x).

Definition trapz (y x : list float) : float :=
  py_sum (zip_with (λ d s, d * s / 2)%float (np_diff x)
            (zip_with PrimFloat.add (tail y) (removelast y))).

Section integrator.

(** [scipy.integrate.trapz] *)
Variable trapz : list float → list float → float.

(** The area before the floor. *)
Definition raw_area (self : Peaks) (j : Z) : float :=
  let profile := isotopomer_profile (intensity_over_time self) j in
  trapz (profile.*2) (profile.*1).

Definition iso_area (self : Peaks) (j : Z) : float :=
  match isotopomer_profile (intensity_over_time self) j with
  | [] => 0%float
  | profile => py_max2 (trapz (profile.*2) (profile.*1)) 0%float
  end.

Definition integrate_isotope_intensity (self : Peaks) : list float :=
  foldl (λ iso_intensity j, iso_intensity ++ [iso_area self j]) [] (iso_to_do self).

End integrator.

End B64.

(** ** Definitions used by the statements *)

(** The isotopologue offsets that occur in a trace. *)
Definition offsets (iot : list Sample) : list Z := (λ s : Sample, s.1.1.2) <$> iot.



(** The result row of a row that was processed with the empty trace. *)
Definition zero_row (self : Peaks) (index : nat) (row : IdRow) : list PyVal :=
  [VInt (Z.of_nat index); VStr (pep_id row)]
    ++ replicate (length (iso_to_do self)) (VFloat 0).

(** The batch wrapper called with its default arguments
    ([num_thread=1], [chunk_size=50]). *)
Definition get_isotopes_from_amrt_multiwrapper_default (cpu_count : Z)
    (self : Peaks) : Res (list (list PyVal)) :=
  get_isotopes_from_amrt_multiwrapper cpu_count self 1 50.

(** ** Concrete scenarios *)

(** The scenario of the specification: one MS1 scan (id 1, retention time
    10) with a peak at 501.008 of intensity 500; the identification has
    charge 2 and mass 1000.0 and elutes in scan 2 (MS2, retention time 12). *)
Definition ex_msdata : gmap Z (list (Qc * Qc)) :=
  <[1%Z := [(dec 501008 1000, dec 500 1)]]> (<[2%Z := []]> ∅).
Definition ex_rt_idx : list (Z * Qc) := [(1%Z, dec 10 1); (2%Z, dec 12 1)].
Definition ex_mslvl_idx : gmap Z Z := <[1%Z := 1%Z]> (<[2%Z := 2%Z]> ∅).

Definition ex_row : IdRow :=
  {| peptide_mass := dec 1000 1; scan := 2; charge := dec 2 1; pep_id := "pep1" |}.

Definition ex_peaks : Peaks :=
  associate_id (set_iso_to_do (init ex_msdata ex_rt_idx ex_mslvl_idx) [0%Z; 1%Z])
    [ex_row].

(** A window scenario: reference retention time 12, tolerance 30.  Scan 3
    (MS1) lies at a difference of exactly 30 and is kept; scan 4 (MS1) lies
    at 30.001 and is dropped; scan 2 is inside the window but is MS2. *)
Definition ex_window : Peaks :=
  init ∅ [(1%Z, dec 10 1); (2%Z, dec 12 1); (3%Z, dec 42 1); (4%Z, dec 42001 1000)]
    (<[1%Z := 1%Z]> (<[2%Z := 2%Z]> (<[3%Z := 1%Z]> (<[4%Z := 1%Z]> ∅)))).

(** A scan index that holds fragment (MS2) scans only: every trace over it
    is empty, so a row whose scan is indexed is processed normally. *)
Definition ex_ms2_only : Peaks :=
  set_iso_to_do
    (init (<[5%Z := []]> (<[6%Z := []]> ∅))
          [(5%Z, dec 10 1); (6%Z, dec 11 1)]
          (<[5%Z := 2%Z]> (<[6%Z := 2%Z]> ∅)))
    [0%Z; 1%Z].

Definition row_a : IdRow :=
  {| peptide_mass := dec 1000 1; scan := 5; charge := dec 2 1; pep_id := "pepA" |}.
Definition row_c : IdRow :=
  {| peptide_mass := dec 1200 1; scan := 6; charge := dec 3 1; pep_id := "pepC" |}.
(** A row whose scan is not in the index. *)
Definition row_missing : IdRow :=
  {| peptide_mass := dec 1100 1; scan := 99; charge := dec 2 1; pep_id := "pepB" |}.
(** A row with charge 0. *)
Definition row_zero : IdRow :=
  {| peptide_mass := dec 1100 1; scan := 5; charge := 0; pep_id := "pepZ" |}.

(** A scan at retention time 2 - 2^-52 (MS1) and the elution scan at 32.0
    (MS2), with the default tolerance 30; the one peak of the first scan has
    the float nearest to 501.008 as its mass. *)
Definition ex_rounding : B64.Peaks :=
  {| B64.msdata := <[1%Z := [(0x1.f5020c49ba5e3p+8%float, 500%float)]]> ∅;
     B64.rt_idx := [(1%Z, 0x1.fffffffffffffp+0%float); (2%Z, 32%float)];
     B64.mslvl_idx := <[1%Z := 1%Z]> (<[2%Z := 2%Z]> ∅);
     B64.iso_to_do := [0%Z];
     B64.rt_tolerance := 30%float;
     B64.mass_tolerance := 0x1.a36e2eb1c432dp-14%float;
     B64.intensity_over_time := [] |}.


(** Two samples of offset 0 at the same retention time 1.0, with the finite
    intensity 1.5e308 (the float nearest to it). *)
Definition ex_overflow : B64.Peaks :=
  {| B64.msdata := ∅; B64.rt_idx := []; B64.mslvl_idx := ∅;
     B64.iso_to_do := [0%Z];
     B64.rt_tolerance := 30%float;
     B64.mass_tolerance := 0x1.a36e2eb1c432dp-14%float;
     B64.intensity_over_time :=
       [(1%float, 0%Z, 0x1.ab36d48e1acfp+1023%float, 0%float);
        (1%float, 0%Z, 0x1.ab36d48e1acfp+1023%float, 0%float)] |}.

(** Three samples of offset 0 out of time order: retention times 1, 3, 2 with
    intensities 5, 7, 100; the raw area is -41.5. *)
Definition ex_unsorted : B64.Peaks :=
  {| B64.msdata := ∅; B64.rt_idx := []; B64.mslvl_idx := ∅;
     B64.iso_to_do := [0%Z; 1%Z];
     B64.rt_tolerance := 30%float;
     B64.mass_tolerance := 0x1.a36e2eb1c432dp-14%float;
     B64.intensity_over_time :=
       [(1%float, 0%Z, 5%float, 0%float); (3%float, 0%Z, 7%float, 0%float);
        (2%float, 0%Z, 100%float, 0%float)] |}.

(** * Properties *)

(** ** The error monad *)

Lemma bind_Ok {A B} (c : Res A) (k : A → Res B) (b : B) :
  c ≫= k = Ok b ↔ ∃ a, c = Ok a ∧ k a = Ok b.
Proof.
  destruct c as [a|e]; simpl; split.
  - intros Hk. by exists a.
  - by intros (a' & [= <-] & Hk).
  - intros [=].
  - by intros (a' & [=] & _).
Qed.

(** A loop whose body always raises can only finish without a round. *)
Lemma for_each_body_raises {A S} (l : list A) (body : A → S → Res S) (s r : S) :
  (∀ x s', ¬ is_Ok (body x s')) →
  for_each l body s = Ok r → l = [] ∧ r = s.
Proof.
  intros Hbody. destruct l as [|x l]; simpl.
  - by intros [= ->].
  - intros (s' & Hs' & _)%bind_Ok. destruct (Hbody x s). by exists s'.
Qed.

(** [list(p.imap(f, l))]: the results come back in input order, and the
    first task that raised re-raises in the caller. *)
Section ordered_map.

Context {A B : Type} (f : A → Res B).

Lemma mapM_Res_first_raise (l1 l2 : list A) (x : A) (e : PyErr) :
  Forall (λ y, is_Ok (f y)) l1 →
  f x = Raise e →
  mapM f (l1 ++ x :: l2) = Raise e.
Proof.
  intros Hl1 Hx. induction Hl1 as [|y l1 [b Hy] _ IH]; simpl.
  - by rewrite Hx.
  - by rewrite Hy, IH.
Qed.

Lemma mapM_Res_length (l : list A) (r : list B) :
  mapM f l = Ok r → length r = length l.
Proof.
  revert r. induction l as [|x l IH]; intros r; simpl.
  - by intros [= <-].
  - intros (y & _ & (r' & Hr' & [= <-])%bind_Ok)%bind_Ok. simpl. f_equal. by apply IH.
Qed.

End ordered_map.

(** ** The tracer *)

Lemma py_div_Ok (x y : Qc) : y ≠ 0 → py_div x y = Ok (x / y).
Proof. intros Hy. unfold py_div. by destruct (decide (y = 0)). Qed.

Lemma py_div_zero (x : Qc) : py_div x 0 = Raise ZeroDivisionError_float.
Proof. unfold py_div. by destruct (decide (0 = 0)). Qed.

(** The name read at line 169 is bound nowhere: one round of the inner loop
    never completes. *)
Lemma iso_body_raises (self : Peaks) (peptide_am prec z : Qc)
    (nearbyScan : Z * Qc) (iso : Z) (iot : list Sample) :
  ¬ is_Ok (iso_body self peptide_am prec z nearbyScan iso iot).
Proof.
  destruct nearbyScan as [nearbyScan_id nearbyScan_rt].
  intros [r Hr]. unfold iso_body in Hr.
  destruct (iso_matching self prec z nearbyScan_id iso) as [[am mi]|e];
    simpl in Hr; discriminate Hr.
Qed.


(** The tracer returns normally only with the empty trace, and only when
    there is no (nearby scan, isotopologue) pair to visit. *)
Lemma get_isotopes_from_amrt_Ok (self : Peaks) (peptide_am : Qc)
    (peptide_scan : Z) (z : Qc) (trace : list Sample) :
  get_isotopes_from_amrt self peptide_am peptide_scan z = Ok trace →
  trace = [] ∧
  ∃ nearby, nearby_scans self (dict_get (rt_idx self) peptide_scan) = Ok nearby
            ∧ (nearby = [] ∨ iso_to_do self = []).
Proof.
  unfold get_isotopes_from_amrt.
  intros (prec & _ & (nearby & Hnearby & Hloop)%bind_Ok)%bind_Ok.
  destruct (iso_to_do self) as [|iso isos] eqn:Hisos.
  - split; [|exists nearby; auto].
    assert (∀ acc : list Sample,
      for_each nearby (λ _ iot, for_each [] (λ _ : Z, Ok) iot) acc = Ok trace →
      trace = acc) as Hskip.
    { clear. induction nearby as [|s nearby IH]; intros acc; simpl.
      - by intros [= ->].
      - apply IH. }
    apply Hskip. exact Hloop.
  - apply for_each_body_raises in Hloop as [-> ->]; [split; [done|]; eauto|].
    intros x s' [r Hr]. simpl in Hr. apply bind_Ok in Hr as (s'' & Hs'' & _).
    eapply iso_body_raises. by exists s''.
Qed.


(** C1 (the code departs from the claim).  The claim: for an identification
    with positive charge whose elution scan is indexed, the tracer returns one
    sample per (nearby MS1 scan, isotopologue) pair.  In the scenario of the
    specification there is one nearby MS1 scan and two requested
    isotopologues, so two samples are due; the tracer raises [NameError] for
    the unbound name [peptide_prec_isotopomer_am] instead. *)
Theorem get_isotopes_from_amrt_scenario_NameError :
  0 < charge ex_row
  ∧ dict_get (rt_idx ex_peaks) (scan ex_row) = Some (dec 12 1)
  ∧ nearby_scans ex_peaks (Some (dec 12 1)) = Ok [(1%Z, dec 10 1)]
  ∧ iso_to_do ex_peaks = [0%Z; 1%Z]
  ∧ get_isotopes_from_amrt ex_peaks (peptide_mass ex_row) (scan ex_row) (charge ex_row)
    = Raise (NameError "peptide_prec_isotopomer_am").
Proof. repeat split; compute_done. Qed.

(** ** The integrator *)

Lemma append_loop_map {A B} (f : A → B) (l : list A) (acc : list B) :
  foldl (λ r j, r ++ [f j]) acc l = acc ++ (f <$> l).
Proof.
  revert acc. induction l as [|x l IH]; intros acc; simpl.
  - by rewrite app_nil_r.
  - by rewrite IH, <-app_assoc.
Qed.

(** The loop with [append] is the map of [iso_area] over the request set. *)
Lemma integrate_isotope_intensity_map (self : Peaks) :
  integrate_isotope_intensity self = iso_area self <$> iso_to_do self.
Proof. unfold integrate_isotope_intensity. by rewrite append_loop_map. Qed.

Lemma isotopomer_profile_nil (iot : list Sample) (j : Z) :
  j ∉ offsets iot → isotopomer_profile iot j = [].
Proof.
  unfold offsets, isotopomer_profile. induction iot as [|s iot IH]; simpl; [done|].
  intros Hj. apply not_elem_of_cons in Hj as [Hne Hj].
  rewrite filter_cons. destruct (decide (s.1.1.2 = j)) as [Heq|_]; [|by apply IH].
  by destruct Hne.
Qed.

Lemma iso_area_absent (self : Peaks) (j : Z) :
  j ∉ offsets (intensity_over_time self) → iso_area self j = 0.
Proof. intros Hj. unfold iso_area. by rewrite isotopomer_profile_nil. Qed.

(** C5.  The integrated vector has the length of the request set and follows
    its order: its k-th entry is the area of the k-th requested offset, and
    that entry is 0 when the offset has no sample in the trace.  On the empty
    trace the vector is all zeros. *)
Theorem integrate_isotope_intensity_length_order (self : Peaks) :
  length (integrate_isotope_intensity self) = length (iso_to_do self)
  ∧ integrate_isotope_intensity self = iso_area self <$> iso_to_do self
  ∧ Forall2 (λ j a, j ∉ offsets (intensity_over_time self) → a = 0)
      (iso_to_do self) (integrate_isotope_intensity self)
  ∧ integrate_isotope_intensity (set_intensity_over_time self [])
    = replicate (length (iso_to_do self)) 0.
Proof.
  rewrite !integrate_isotope_intensity_map. split_and!.
  - by rewrite length_fmap.
  - done.
  - apply Forall2_fmap_r, Forall_Forall2_diag, Forall_forall.
    intros j _ Hj. by apply iso_area_absent.
  - simpl. induction (iso_to_do self) as [|j l IH]; simpl; [done|]. by f_equal.
Qed.

(** ** The mass tolerance band *)

Lemma foldl_Qcplus (a : Qc) (l : list Qc) : foldl Qcplus a l = a + py_sum l.
Proof.
  unfold py_sum. revert a. induction l as [|x l IH]; intros a; simpl.
  - ring.
  - rewrite (IH (a + x)), (IH (0 + x)). ring.
Qed.

Lemma py_sum_cons (x : Qc) (l : list Qc) : py_sum (x :: l) = x + py_sum l.
Proof. unfold py_sum at 1. simpl. rewrite foldl_Qcplus. ring. Qed.

Lemma matching_int_cons (up lo : Qc) (p : Qc * Qc) (peaks : list (Qc * Qc)) :
  matching_int up lo (p :: peaks)
  = if decide (p.1 < up ∧ lo < p.1)
    then p.2 + matching_int up lo peaks
    else matching_int up lo peaks.
Proof.
  unfold matching_int. rewrite filter_cons.
  destruct (decide (p.1 < up ∧ lo < p.1)); [|done].
  by rewrite fmap_cons, py_sum_cons.
Qed.

(** ** The precursor m/z *)



(** The scenario in binary64 arithmetic, as Python evaluates it: the float
    nearest to 1.007825 is doubled, added to 1000.0 with one rounding and
    halved; the result is the float nearest to 501.007825. *)
#[local] Set Warnings "-inexact-float".
Example peptide_prec_scenario_binary64 :
  PrimFloat.div (PrimFloat.add 1000%float (PrimFloat.mul 2%float 1.007825%float))
    2%float
  = 501.007825%float.
Proof. reflexivity. Qed.


(** ** The batch wrapper *)

Lemma seq_split_at (n m : nat) : seq 0 (n + S m) = seq 0 n ++ n :: seq (S n) m.
Proof. by rewrite seq_app. Qed.

Lemma worker_raise (self : Peaks) (index : nat) (row : IdRow) (e : PyErr) :
  id self !! index = Some row →
  get_isotopes_from_amrt self (peptide_mass row) (scan row) (charge row) = Raise e →
  worker self index = Raise e.
Proof.
  intros Hrow Htrace. unfold worker, get_isotopes_from_amrt_wrapper, loc.
  rewrite Hrow. simpl. by rewrite Htrace.
Qed.

(** The assertion on the worker count passes exactly for the counts at or
    above [cpu_count - 1]. *)
Lemma thread_check_passes_iff (cpu_count num_thread : Z) :
  py_assert (num_thread >=? cpu_count - 1)%Z "Number of threads exceeded CPU count"
  = Ok () ↔ (cpu_count - 1 ≤ num_thread)%Z.
Proof.
  unfold py_assert. destruct (num_thread >=? cpu_count - 1)%Z eqn:Hge.
  - apply Z.geb_le in Hge. by split.
  - split; [done|]. intros Hle%Z.geb_le. congruence.
Qed.

(** C3 (the code departs from the claim).  The claim: the wrapper refuses a
    worker count above [cpu_count - 1] and accepts every count at or below
    it.  With 8 processors, 1 worker is refused with the message of the
    assertion (Number of threads exceeded CPU count) although 1 is below 7,
    and 16 workers pass both assertions and the batch runs: the comparison
    of the assertion is the reverse of its message. *)
Theorem multiwrapper_thread_check_reversed :
  get_isotopes_from_amrt_multiwrapper 8 (associate_id ex_ms2_only [row_a]) 1 50
  = Raise (AssertionError "Number of threads exceeded CPU count")
  ∧ get_isotopes_from_amrt_multiwrapper 8 (associate_id ex_ms2_only [row_a]) 16 50
    = Ok [[VInt 0; VStr "pepA"; VFloat 0; VFloat 0]].
Proof. split; compute_done. Qed.

(** C10.  On an empty identification table, with both assertions passing,
    the batch wrapper raises a [ValueError] and returns no result sequence;
    with at least one worker the error is that of [max] over the empty
    row-index range. *)
Theorem multiwrapper_empty_table (cpu_count : Z) (self : Peaks)
    (num_thread chunk_size : Z) :
  id self = [] →
  (cpu_count - 1 ≤ num_thread)%Z → (0 < chunk_size)%Z →
  (∃ msg, get_isotopes_from_amrt_multiwrapper cpu_count self num_thread chunk_size
          = Raise (ValueError msg))
  ∧ ((1 ≤ num_thread)%Z →
     get_isotopes_from_amrt_multiwrapper cpu_count self num_thread chunk_size
     = Raise (ValueError "max() arg is an empty sequence")).
Proof.
  intros Hid Hcpu Hc. unfold get_isotopes_from_amrt_multiwrapper.
  assert ((num_thread >=? cpu_count - 1)%Z = true) as -> by (apply Z.geb_le; lia).
  assert ((chunk_size >? 0)%Z = true) as -> by (apply Z.gtb_lt; lia).
  simpl.
  rewrite Hid. unfold Pool. simpl.
  destruct (decide (num_thread < 1)%Z); simpl.
  - split; [by eexists | lia].
  - split; [by eexists | done].
Qed.

Lemma multiwrapper_empty_table_witness :
  get_isotopes_from_amrt_multiwrapper 2 ex_ms2_only 1 50
  = Raise (ValueError "max() arg is an empty sequence").
Proof.
  apply (multiwrapper_empty_table 2 ex_ms2_only 1 50); [reflexivity | lia..].
Defined.

(** A batch that returns has one result row per row of the table. *)
Lemma multiwrapper_Ok_length (cpu_count : Z) (self : Peaks)
    (num_thread chunk_size : Z) (result : list (list PyVal)) :
  get_isotopes_from_amrt_multiwrapper cpu_count self num_thread chunk_size
  = Ok result →
  length result = length (id self).
Proof.
  unfold get_isotopes_from_amrt_multiwrapper.
  intros (_ & _ & (_ & _ & (_ & _ & (_ & _ & Hmap)%bind_Ok)%bind_Ok)%bind_Ok)%bind_Ok.
  apply mapM_Res_length in Hmap. by rewrite Hmap, length_seq.
Qed.

(** ** Rows that raise *)

(** [rt_idx.get] answers [None] for a scan that is not indexed; the first
    entry of the index then fails in [rt - peptide_rt]. *)
Lemma get_isotopes_from_amrt_missing_rt (self : Peaks) (peptide_am : Qc)
    (peptide_scan : Z) (z : Qc) :
  z ≠ 0 →
  dict_get (rt_idx self) peptide_scan = None →
  rt_idx self ≠ [] →
  get_isotopes_from_amrt self peptide_am peptide_scan z = Raise TypeError_sub_None.
Proof.
  intros Hz Hget Hidx. unfold get_isotopes_from_amrt, peptide_prec, nearby_scans.
  rewrite py_div_Ok by done. rewrite Hget. simpl.
  destruct (rt_idx self) as [|[i rt] idx]; [done|]. done.
Qed.

(** The division of line 145 is the second statement of the tracer and is
    executed as it stands. *)
Lemma get_isotopes_from_amrt_zero_charge (self : Peaks) (peptide_am : Qc)
    (peptide_scan : Z) :
  get_isotopes_from_amrt self peptide_am peptide_scan 0
  = Raise ZeroDivisionError_float.
Proof. unfold get_isotopes_from_amrt, peptide_prec. by rewrite py_div_zero. Qed.

(** On an empty index nothing is compared: a row whose scan is missing goes
    through with the empty trace and a zero-filled result. *)
Example missing_reference_empty_index :
  get_isotopes_from_amrt_wrapper
    (associate_id (set_iso_to_do (init ∅ [] ∅) [0%Z; 1%Z]) [row_missing]) 0
  = Ok (associate_id (set_iso_to_do (init ∅ [] ∅) [0%Z; 1%Z]) [row_missing],
        ["Empty intensity over time"],
        [VInt 0; VStr "pepB"; VFloat 0; VFloat 0]).
Proof. reflexivity. Qed.

(** A batch whose assertions pass with at least one worker, and whose rows
    before [row] are all processed normally. *)
Section first_failure.

Variables (cpu_count : Z) (self : Peaks) (num_thread chunk_size : Z).
Variables (pre post : list IdRow) (row : IdRow).

Hypothesis Hid : id self = pre ++ row :: post.
Hypothesis Hcpu : (cpu_count - 1 ≤ num_thread)%Z.
Hypothesis Hworkers : (1 ≤ num_thread)%Z.
Hypothesis Hchunk : (0 < chunk_size)%Z.
Hypothesis Hpre : ∀ i, (i < length pre)%nat → is_Ok (worker self i).

(** No handler stands between a worker and the caller of the batch: the
    first row that raises ends the batch with its exception. *)
Lemma multiwrapper_first_raise (e : PyErr) :
  worker self (length pre) = Raise e →
  get_isotopes_from_amrt_multiwrapper cpu_count self num_thread chunk_size = Raise e.
Proof.
  intros Hrow. unfold get_isotopes_from_amrt_multiwrapper.
  assert ((num_thread >=? cpu_count - 1)%Z = true) as -> by (apply Z.geb_le; lia).
  assert ((chunk_size >? 0)%Z = true) as -> by (apply Z.gtb_lt; lia).
  simpl.
  unfold Pool. destruct (decide (num_thread < 1)%Z); [lia|].
  rewrite Hid, length_app. simpl length.
  rewrite seq_split_at, Nat.add_succ_r. simpl.
  apply mapM_Res_first_raise; [|done].
  apply Forall_forall. intros i Hi%elem_of_seq. apply Hpre. lia.
Qed.

Lemma tracer_raise_aborts_batch (e : PyErr) :
  get_isotopes_from_amrt self (peptide_mass row) (scan row) (charge row) = Raise e →
  get_isotopes_from_amrt_multiwrapper cpu_count self num_thread chunk_size = Raise e.
Proof.
  intros Htrace. apply multiwrapper_first_raise.
  apply (worker_raise _ _ row); [|done].
  rewrite Hid. by apply list_lookup_middle.
Qed.

End first_failure.

(** C2, as stated, fails.  Rows 0 and 2 reference indexed scans, row 1
    references scan 99, which has no retention time.  Processing row 1
    raises a [TypeError], which is not a [LookupError]; the batch of the
    three rows raises it too and returns no row, while the batch of rows 0
    and 2 alone returns their two result rows. *)
Lemma missing_reference_counterexample :
  dict_get (rt_idx ex_ms2_only) (scan row_missing) = None
  ∧ worker (associate_id ex_ms2_only [row_a; row_missing; row_c]) 1
    = Raise TypeError_sub_None
  ∧ is_LookupError TypeError_sub_None = false
  ∧ get_isotopes_from_amrt_multiwrapper 2
      (associate_id ex_ms2_only [row_a; row_missing; row_c]) 1 50
    = Raise TypeError_sub_None
  ∧ get_isotopes_from_amrt_multiwrapper 2
      (associate_id ex_ms2_only [row_a; row_c]) 1 50
    = Ok [[VInt 0; VStr "pepA"; VFloat 0; VFloat 0];
          [VInt 1; VStr "pepC"; VFloat 0; VFloat 0]].
Proof. split_and!; compute_done. Qed.

(** C4, as stated, fails.  Row 1 has charge 0.  The tracer raises the
    [ZeroDivisionError] of the division itself; the batch of the three rows
    raises it too and returns no row, while the batch of rows 0 and 2 alone
    returns their two result rows. *)
Lemma zero_charge_counterexample :
  charge row_zero = 0
  ∧ get_isotopes_from_amrt ex_ms2_only (peptide_mass row_zero) (scan row_zero)
      (charge row_zero)
    = Raise ZeroDivisionError_float
  ∧ get_isotopes_from_amrt_multiwrapper 2
      (associate_id ex_ms2_only [row_a; row_zero; row_c]) 1 50
    = Raise ZeroDivisionError_float
  ∧ get_isotopes_from_amrt_multiwrapper 2
      (associate_id ex_ms2_only [row_a; row_c]) 1 50
    = Ok [[VInt 0; VStr "pepA"; VFloat 0; VFloat 0];
          [VInt 1; VStr "pepC"; VFloat 0; VFloat 0]].
Proof. split_and!; compute_done. Qed.

(** * Further properties of the tracer *)

Lemma py_div_is_Ok (x y r : Qc) : py_div x y = Ok r → y ≠ 0.
Proof. unfold py_div. by destruct (decide (y = 0)). Qed.

(** An outer loop whose inner loop has nothing to visit leaves the
    accumulator as it was. *)
Lemma for_each_empty_inner {A B S} (l : list A) (body : A → B → S → Res S) (s : S) :
  for_each l (λ x acc, for_each [] (body x) acc) s = Ok s.
Proof. revert s. induction l as [|x l IH]; intros s; simpl; [done|]. apply IH. Qed.

(** The comprehension returns the entries whose condition is true, in
    order, and returns only when no condition raised. *)
Lemma filterM_inv {A} (c : A → Res bool) (l r : list A) :
  filterM c l = Ok r →
  r = filter (λ x, c x = Ok true) l ∧ Forall (λ x, is_Ok (c x)) l.
Proof.
  revert r. induction l as [|x l IH]; intros r; simpl.
  - by intros [= <-].
  - intros (b & Hb & (r' & Hr' & [= <-])%bind_Ok)%bind_Ok.
    destruct (IH r' Hr') as [-> Hall]. split.
    + rewrite filter_cons. rewrite Hb. destruct b; by case_decide.
    + constructor; [by exists b | done].
Qed.

(** The comprehension stops at the first entry whose condition raises. *)
Lemma filterM_first_raise {A} (c : A → Res bool) (l1 l2 : list A) (x : A) (e : PyErr) :
  Forall (λ y, is_Ok (c y)) l1 →
  c x = Raise e →
  filterM c (l1 ++ x :: l2) = Raise e.
Proof.
  intros Hl1 Hx. induction Hl1 as [|y l1 [b Hy] _ IH]; simpl.
  - by rewrite Hx.
  - by rewrite Hy, IH.
Qed.

(** Without a (nearby scan, isotopologue) pair the loops have nothing to
    do. *)
Lemma get_isotopes_from_amrt_no_pair (self : Peaks) (peptide_am : Qc)
    (peptide_scan : Z) (z : Qc) (nearby : list (Z * Qc)) :
  z ≠ 0 →
  nearby_scans self (dict_get (rt_idx self) peptide_scan) = Ok nearby →
  nearby = [] ∨ iso_to_do self = [] →
  get_isotopes_from_amrt self peptide_am peptide_scan z = Ok [].
Proof.
  intros Hz Hnearby Hnone. unfold get_isotopes_from_amrt, peptide_prec.
  rewrite py_div_Ok by done. simpl. rewrite Hnearby. simpl.
  destruct Hnone as [-> | ->]; [done|]. apply for_each_empty_inner.
Qed.

(** X1.  The tracer returns normally exactly when the charge is not 0, the
    comprehension over the index returns, and there is no nearby scan or no
    requested isotopologue; what it returns is then the empty trace. *)
Theorem get_isotopes_from_amrt_returns_iff (self : Peaks) (peptide_am : Qc)
    (peptide_scan : Z) (z : Qc) (trace : list Sample) :
  get_isotopes_from_amrt self peptide_am peptide_scan z = Ok trace ↔
  trace = [] ∧ z ≠ 0 ∧
  ∃ nearby, nearby_scans self (dict_get (rt_idx self) peptide_scan) = Ok nearby
            ∧ (nearby = [] ∨ iso_to_do self = []).
Proof.
  split.
  - intros Hrun. destruct (get_isotopes_from_amrt_Ok _ _ _ _ _ Hrun) as [-> Hnearby].
    split_and!; [done| |done].
    unfold get_isotopes_from_amrt in Hrun.
    apply bind_Ok in Hrun as (prec & Hprec & _). by apply py_div_is_Ok in Hprec.
  - intros (-> & Hz & nearby & Hnearby & Hnone).
    by eapply get_isotopes_from_amrt_no_pair.
Qed.

Lemma get_isotopes_from_amrt_returns_iff_witness :
  get_isotopes_from_amrt ex_ms2_only (dec 1000 1) 5 (dec 2 1) = Ok [].
Proof.
  apply (get_isotopes_from_amrt_returns_iff ex_ms2_only (dec 1000 1) 5 (dec 2 1) []).
  split_and!; [reflexivity | compute_done |].
  exists []. split; [compute_done | by left].
Defined.



(** X3.  A scan inside the window whose MS level is not recorded makes the
    comprehension raise [KeyError] with the scan as its key, when no earlier
    entry of the index raised. *)
Theorem nearby_scans_KeyError (self : Peaks) (peptide_rt : Qc)
    (pre post : list (Z * Qc)) (i : Z) (rt : Qc) :
  rt_idx self = pre ++ (i, rt) :: post →
  Forall (λ item, is_Ok (nearby_cond self (Some peptide_rt) item)) pre →
  Qcabs (rt - peptide_rt) ≤ rt_tolerance self →
  mslvl_idx self !! i = None →
  nearby_scans self (Some peptide_rt) = Raise (KeyError i).
Proof.
  intros Hidx Hpre Hin Hlvl. unfold nearby_scans. rewrite Hidx.
  apply filterM_first_raise; [done|].
  unfold nearby_cond, mslvl_getitem. simpl.
  destruct (decide (Qcabs (rt - peptide_rt) ≤ rt_tolerance self)); [|done].
  by rewrite Hlvl.
Qed.

Lemma nearby_scans_KeyError_witness :
  nearby_scans (init ∅ [(1%Z, dec 10 1); (7%Z, dec 11 1)] (<[1%Z := 1%Z]> ∅))
    (Some (dec 12 1))
  = Raise (KeyError 7).
Proof.
  apply (nearby_scans_KeyError _ (dec 12 1) [(1%Z, dec 10 1)] [] 7 (dec 11 1)).
  - reflexivity.
  - constructor; [|constructor]. eexists. vm_compute. reflexivity.
  - compute_done.
  - reflexivity.
Defined.

(** X4.  With a negative retention-time tolerance and a reference retention
    time, no scan is nearby, and no MS level is looked up. *)
Theorem nearby_scans_negative_tolerance (self : Peaks) (peptide_rt : Qc) :
  rt_tolerance self < 0 →
  nearby_scans self (Some peptide_rt) = Ok [].
Proof.
  intros Hneg. unfold nearby_scans.
  induction (rt_idx self) as [|[i rt] idx IH]; simpl; [done|].
  destruct (decide (Qcabs (rt - peptide_rt) ≤ rt_tolerance self)) as [Hle|_].
  - destruct (Qclt_not_le _ _ Hneg). eapply Qcle_trans; [apply Qcabs_nonneg | exact Hle].
  - simpl. by rewrite IH.
Qed.

Lemma nearby_scans_negative_tolerance_witness :
  nearby_scans (set_rt_tolerance ex_window (dec (-1) 1)) (Some (dec 12 1)) = Ok [].
Proof. apply nearby_scans_negative_tolerance. compute_done. Defined.


(** The condition of the comprehension is true exactly for an MS1 scan
    inside the window around an existing reference. *)
Lemma nearby_cond_true (self : Peaks) (peptide_rt : option Qc) (i : Z) (rt : Qc) :
  nearby_cond self peptide_rt (i, rt) = Ok true ↔
  ∃ prt, peptide_rt = Some prt
         ∧ Qcabs (rt - prt) ≤ rt_tolerance self
         ∧ mslvl_idx self !! i = Some 1%Z.
Proof.
  unfold nearby_cond, mslvl_getitem. destruct peptide_rt as [prt|]; simpl.
  - destruct (decide (Qcabs (rt - prt) ≤ rt_tolerance self)) as [Hin|Hout].
    + destruct (mslvl_idx self !! i) as [lvl|]; simpl.
      * unfold mret, Res_ret. split.
        -- intros [= Hlvl%bool_decide_eq_true]. exists prt. by rewrite Hlvl.
        -- intros (? & [= <-] & _ & [= ->]). done.
      * split; [done|]. by intros (? & _ & _ & [=]).
    + split; [done|]. intros (? & [= <-] & Hin & _). done.
  - split; [done|]. by intros (? & [=] & _).
Qed.

Lemma filter_sublist_impl {A} (P Q : A → Prop)
    `{∀ x, Decision (P x)} `{∀ x, Decision (Q x)} (l : list A) :
  (∀ x, x ∈ l → P x → Q x) →
  filter P l `sublist_of` filter Q l.
Proof.
  induction l as [|x l IH]; intros Himpl; [done|].
  assert (filter P l `sublist_of` filter Q l) as Hl
    by (apply IH; intros y Hy; apply Himpl; by right).
  rewrite !filter_cons. destruct (decide (P x)) as [HP|_].
  - rewrite decide_True by (apply Himpl; [by left | done]). by constructor.
  - destruct (decide (Q x)); [by constructor | done].
Qed.

(** X5.  Widening the retention-time tolerance never drops a nearby scan:
    when the comprehension returns under both tolerances, the scans found
    under the smaller one are, in order, among those found under the
    larger one. *)
Theorem nearby_scans_widen (self : Peaks) (peptide_rt : option Qc)
    (tol1 tol2 : Qc) (nearby1 nearby2 : list (Z * Qc)) :
  tol1 ≤ tol2 →
  nearby_scans (set_rt_tolerance self tol1) peptide_rt = Ok nearby1 →
  nearby_scans (set_rt_tolerance self tol2) peptide_rt = Ok nearby2 →
  nearby1 `sublist_of` nearby2.
Proof.
  intros Htol [-> _]%filterM_inv [-> _]%filterM_inv. simpl.
  apply filter_sublist_impl. intros [i rt] _.
  rewrite !nearby_cond_true. simpl.
  intros (prt & -> & Hin & Hlvl). exists prt. split_and!; [done| |done].
  by eapply Qcle_trans.
Qed.

Lemma nearby_scans_widen_witness :
  [(1%Z, dec 10 1)] `sublist_of` [(1%Z, dec 10 1); (3%Z, dec 42 1)].
Proof.
  apply (nearby_scans_widen ex_window (Some (dec 12 1)) (dec 5 1) (dec 30 1)).
  - compute_done.
  - compute_done.
  - compute_done.
Defined.



(** ** Further properties of the mass tolerance band *)

Lemma matching_int_no_band (up lo : Qc) (peaks : list (Qc * Qc)) :
  up ≤ lo → matching_int up lo peaks = 0.
Proof.
  intros Hband. induction peaks as [|p peaks IH]; [done|].
  rewrite matching_int_cons. case_decide as Hin; [|done].
  destruct Hin as [Hup Hlo]. destruct (Qclt_not_le _ _ (Qclt_trans _ _ _ Hlo Hup) Hband).
Qed.

Lemma upper_minus_lower (self : Peaks) (am : Qc) :
  lower self am + - upper self am = - (am * mass_tolerance self).
Proof. unfold upper, lower. field. compute_done. Qed.

(** X7.  When the product of the theoretical m/z and the mass tolerance is
    zero or negative (a tolerance of 0, a negative tolerance on a positive
    m/z), the band is empty and the matched intensity is 0 whatever the
    peaks, a peak at the theoretical m/z itself included. *)
Theorem matching_int_empty_band (self : Peaks) (am : Qc) (peaks : list (Qc * Qc)) :
  am * mass_tolerance self ≤ 0 →
  matching_int (upper self am) (lower self am) peaks = 0.
Proof.
  intros Hprod. apply matching_int_no_band, Qcle_minus_iff.
  rewrite upper_minus_lower. by apply Qcopp_le_compat in Hprod.
Qed.

Lemma matching_int_empty_band_witness :
  matching_int (upper (set_mass_tolerance ex_peaks 0) (dec 501008 1000))
    (lower (set_mass_tolerance ex_peaks 0) (dec 501008 1000))
    [(dec 501008 1000, dec 500 1)]
  = 0.
Proof. apply matching_int_empty_band. compute_done. Defined.

Lemma matching_int_mono (up1 lo1 up2 lo2 : Qc) (peaks : list (Qc * Qc)) :
  lo2 ≤ lo1 → up1 ≤ up2 →
  Forall (λ p, 0 ≤ p.2) peaks →
  0 ≤ matching_int up1 lo1 peaks
  ∧ matching_int up1 lo1 peaks ≤ matching_int up2 lo2 peaks.
Proof.
  intros Hlo Hup Hpos. induction Hpos as [|p peaks Hp _ [IH0 IH]]; [done|].
  rewrite !matching_int_cons.
  destruct (decide (p.1 < up1 ∧ lo1 < p.1)) as [[H1 H2]|_].
  - rewrite decide_True
      by (split; [by eapply Qclt_le_trans | by eapply Qcle_lt_trans]).
    split; [by apply Qcplus_nonneg_nonneg | by apply Qcplus_le_mono_l].
  - split; [done|]. case_decide; [|done].
    rewrite <-(Qcplus_0_l (matching_int up1 lo1 peaks)).
    by apply Qcplus_le_compat.
Qed.

Lemma half_tolerance_mono (am tol1 tol2 : Qc) :
  0 ≤ am → tol1 ≤ tol2 → am * (tol1 / 2) ≤ am * (tol2 / 2).
Proof.
  intros Ham Htol. apply Qcmult_le_mono_nonneg_l; [done|].
  unfold Qcdiv. apply Qcmult_le_mono_nonneg_r; [compute_done | done].
Qed.

(** X8.  For peaks of non-negative intensity and a theoretical m/z that is
    not negative, the matched intensity is not negative and widening the
    mass tolerance never lowers it. *)
Theorem matching_int_widen (self : Peaks) (am tol1 tol2 : Qc)
    (peaks : list (Qc * Qc)) :
  0 ≤ am → tol1 ≤ tol2 →
  Forall (λ p, 0 ≤ p.2) peaks →
  0 ≤ matching_int (upper (set_mass_tolerance self tol1) am)
        (lower (set_mass_tolerance self tol1) am) peaks
  ∧ matching_int (upper (set_mass_tolerance self tol1) am)
      (lower (set_mass_tolerance self tol1) am) peaks
    ≤ matching_int (upper (set_mass_tolerance self tol2) am)
        (lower (set_mass_tolerance self tol2) am) peaks.
Proof.
  intros Ham Htol Hpos. pose proof (half_tolerance_mono am tol1 tol2 Ham Htol) as Hhalf.
  apply matching_int_mono; [| |done]; unfold upper, lower; simpl.
  - apply Qcplus_le_mono_l. by apply Qcopp_le_compat.
  - by apply Qcplus_le_mono_l.
Qed.

Lemma matching_int_widen_witness :
  0 ≤ matching_int (upper (set_mass_tolerance ex_peaks (dec 1 10000000)) (dec 501007825 1000000))
        (lower (set_mass_tolerance ex_peaks (dec 1 10000000)) (dec 501007825 1000000))
        [(dec 501008 1000, dec 500 1)]
  ∧ matching_int (upper (set_mass_tolerance ex_peaks (dec 1 10000000)) (dec 501007825 1000000))
      (lower (set_mass_tolerance ex_peaks (dec 1 10000000)) (dec 501007825 1000000))
      [(dec 501008 1000, dec 500 1)]
    ≤ matching_int (upper (set_mass_tolerance ex_peaks (dec 100 1000000)) (dec 501007825 1000000))
        (lower (set_mass_tolerance ex_peaks (dec 100 1000000)) (dec 501007825 1000000))
        [(dec 501008 1000, dec 500 1)].
Proof.
  apply (matching_int_widen ex_peaks (dec 501007825 1000000) (dec 1 10000000)
           (dec 100 1000000) [(dec 501008 1000, dec 500 1)]).
  - compute_done.
  - compute_done.
  - constructor; [compute_done | constructor].
Defined.

(** * Further properties of the integrator *)

(** X10.  An isotopologue that has exactly one sample in the trace
    integrates to 0, whatever the intensity of that sample. *)
Theorem iso_area_single_sample (self : Peaks) (j : Z) (s : Sample) :
  filter (λ s : Sample, s.1.1.2 = j) (intensity_over_time self) = [s] →
  iso_area self j = 0.
Proof.
  intros Hone. unfold iso_area, isotopomer_profile. rewrite Hone.
  destruct s as [[[rt iso] intensity] mz]. done.
Qed.

Lemma iso_area_single_sample_witness :
  iso_area (set_intensity_over_time ex_peaks [(dec 10 1, 0%Z, dec 500 1, dec 501 1)]) 0 = 0.
Proof.
  apply (iso_area_single_sample _ 0 (dec 10 1, 0%Z, dec 500 1, dec 501 1)).
  reflexivity.
Defined.

(** A change of the samples that keeps the offsets acts on the profile
    through the (retention time, intensity) pairs. *)
Lemma isotopomer_profile_fmap (f : Sample → Sample) (g : Qc * Qc → Qc * Qc)
    (iot : list Sample) (j : Z) :
  (∀ s, (f s).1.1.2 = s.1.1.2) →
  (∀ rt iso intensity mz,
     (let '(rt', _, intensity', _) := f (rt, iso, intensity, mz) in (rt', intensity'))
     = g (rt, intensity)) →
  isotopomer_profile (f <$> iot) j = g <$> isotopomer_profile iot j.
Proof.
  intros Hiso Hg. unfold isotopomer_profile.
  induction iot as [|s iot IH]; [done|].
  rewrite fmap_cons, !filter_cons, Hiso.
  destruct (decide (s.1.1.2 = j)); [|done].
  rewrite !fmap_cons, IH. f_equal.
  destruct s as [[[rt iso] intensity] mz]. apply Hg.
Qed.

(** X14.  The integrated intensities depend neither on the m/z recorded in
    the samples nor on the samples of offsets that are not requested. *)
Theorem integrate_isotope_intensity_ignores (self : Peaks) (f : Qc → Qc) :
  integrate_isotope_intensity
    (set_intensity_over_time self
       ((λ s : Sample, (s.1.1.1, s.1.1.2, s.1.2, f s.2)) <$> intensity_over_time self))
  = integrate_isotope_intensity self
  ∧ integrate_isotope_intensity
      (set_intensity_over_time self
         (filter (λ s : Sample, s.1.1.2 ∈ iso_to_do self) (intensity_over_time self)))
    = integrate_isotope_intensity self.
Proof.
  rewrite !integrate_isotope_intensity_map. simpl. split.
  - apply list_fmap_ext. intros _ j _. unfold iso_area. simpl.
    rewrite (isotopomer_profile_fmap _ (λ p, p)); [|done..].
    by rewrite list_fmap_id.
  - apply Forall_fmap_ext, Forall_forall. intros j Hj.
    unfold iso_area, isotopomer_profile. simpl.
    rewrite list_filter_filter.
    assert (filter (λ s : Sample, s.1.1.2 = j ∧ s.1.1.2 ∈ iso_to_do self)
              (intensity_over_time self)
            = filter (λ s : Sample, s.1.1.2 = j) (intensity_over_time self)) as ->; [|done].
    apply list_filter_iff. intros s. split; [tauto|]. intros Hs. split; [done|].
    by rewrite Hs.
Qed.

(** * Further properties of the wrappers *)

Lemma integrate_isotope_intensity_empty (self : Peaks) :
  integrate_isotope_intensity (set_intensity_over_time self [])
  = replicate (length (iso_to_do self)) 0.
Proof.
  rewrite integrate_isotope_intensity_map. simpl.
  induction (iso_to_do self) as [|j l IH]; simpl; [done|]. by f_equal.
Qed.

Lemma worker_zero_row (self : Peaks) (index : nat) (row : IdRow) :
  id self !! index = Some row →
  get_isotopes_from_amrt self (peptide_mass row) (scan row) (charge row) = Ok [] →
  worker self index = Ok (zero_row self index row).
Proof.
  intros Hrow Htrace. unfold worker, get_isotopes_from_amrt_wrapper, loc.
  rewrite Hrow. simpl. rewrite Htrace. simpl.
  rewrite integrate_isotope_intensity_empty. by rewrite fmap_replicate.
Qed.

Lemma worker_Ok_inv (self : Peaks) (index : nat) (result : list PyVal) :
  worker self index = Ok result →
  ∃ row, id self !! index = Some row ∧ result = zero_row self index row.
Proof.
  unfold worker, get_isotopes_from_amrt_wrapper, loc.
  intros (r & (row & Hrow & (trace & Htrace & [= <-])%bind_Ok)%bind_Ok & [= <-])%bind_Ok.
  destruct (id self !! index) as [row'|]; [|done]. injection Hrow as ->.
  apply get_isotopes_from_amrt_Ok in Htrace as [-> _].
  exists row. split; [done|]. simpl.
  rewrite integrate_isotope_intensity_empty. by rewrite fmap_replicate.
Qed.

(** X15.  Whenever the row wrapper returns, the trace it stored is empty,
    it printed the line about the empty trace, no other field of the object
    changed, and the result row is the row index and the [pep_id] followed
    by one 0 per requested isotopologue. *)
Theorem get_isotopes_from_amrt_wrapper_Ok (self self' : Peaks) (index : nat)
    (out : list string) (result : list PyVal) :
  get_isotopes_from_amrt_wrapper self index = Ok (self', out, result) →
  ∃ row, id self !! index = Some row
         ∧ self' = set_intensity_over_time self []
         ∧ out = ["Empty intensity over time"]
         ∧ result = zero_row self index row.
Proof.
  unfold get_isotopes_from_amrt_wrapper, loc.
  intros (row & Hrow & (trace & Htrace & Hret)%bind_Ok)%bind_Ok.
  destruct (id self !! index) as [row'|]; [|done]. injection Hrow as ->.
  apply get_isotopes_from_amrt_Ok in Htrace as [-> _].
  injection Hret as <- <- <-. exists row. split_and!; [done..|].
  unfold zero_row. simpl.
  rewrite integrate_isotope_intensity_empty. by rewrite fmap_replicate.
Qed.

Lemma get_isotopes_from_amrt_wrapper_Ok_witness :
  ∃ row, id (associate_id ex_ms2_only [row_a]) !! 0%nat = Some row
         ∧ set_intensity_over_time (associate_id ex_ms2_only [row_a]) []
           = set_intensity_over_time (associate_id ex_ms2_only [row_a]) []
         ∧ ["Empty intensity over time"] = ["Empty intensity over time"]
         ∧ [VInt 0; VStr "pepA"; VFloat 0; VFloat 0]
           = zero_row (associate_id ex_ms2_only [row_a]) 0 row.
Proof.
  apply (get_isotopes_from_amrt_wrapper_Ok (associate_id ex_ms2_only [row_a])).
  reflexivity.
Defined.

(** X16.  Called with an index that is not a row of the table, the row
    wrapper raises [KeyError] with that index, before anything else. *)
Theorem get_isotopes_from_amrt_wrapper_KeyError (self : Peaks) (index : nat) :
  (length (id self) ≤ index)%nat →
  get_isotopes_from_amrt_wrapper self index = Raise (KeyError (Z.of_nat index)).
Proof.
  intros Hlen. unfold get_isotopes_from_amrt_wrapper, loc.
  by rewrite lookup_ge_None_2.
Qed.

Lemma get_isotopes_from_amrt_wrapper_KeyError_witness :
  get_isotopes_from_amrt_wrapper ex_peaks 1 = Raise (KeyError 1).
Proof. apply (get_isotopes_from_amrt_wrapper_KeyError ex_peaks 1). simpl. lia. Defined.

(** X17.  Every worker count below [cpu_count - 1] is refused by the first
    assertion, whatever the table and the chunk size; so the call with the
    default arguments is refused on every machine with three processors or
    more. *)
Theorem multiwrapper_too_few_threads (cpu_count : Z) (self : Peaks)
    (num_thread chunk_size : Z) :
  (num_thread < cpu_count - 1)%Z →
  get_isotopes_from_amrt_multiwrapper cpu_count self num_thread chunk_size
  = Raise (AssertionError "Number of threads exceeded CPU count")
  ∧ ((3 ≤ cpu_count)%Z →
     get_isotopes_from_amrt_multiwrapper_default cpu_count self
     = Raise (AssertionError "Number of threads exceeded CPU count")).
Proof.
  intros Hfew.
  unfold get_isotopes_from_amrt_multiwrapper_default, get_isotopes_from_amrt_multiwrapper.
  split.
  - assert ((num_thread >=? cpu_count - 1)%Z = false) as ->; [|done].
    apply not_true_is_false. intros Hge%Z.geb_le. lia.
  - intros Hcpu. assert ((1 >=? cpu_count - 1)%Z = false) as ->; [|done].
    apply not_true_is_false. intros Hge%Z.geb_le. lia.
Qed.

Lemma multiwrapper_too_few_threads_witness :
  get_isotopes_from_amrt_multiwrapper 4 ex_peaks 2 50
  = Raise (AssertionError "Number of threads exceeded CPU count")
  ∧ ((3 ≤ 4)%Z →
     get_isotopes_from_amrt_multiwrapper_default 4 ex_peaks
     = Raise (AssertionError "Number of threads exceeded CPU count")).
Proof. apply (multiwrapper_too_few_threads 4 ex_peaks 2 50). lia. Defined.

(** X18.  With a worker count that passes the first assertion, a chunk size
    of 0 or less is refused by the second one, whatever the table. *)
Theorem multiwrapper_chunk_size_refused (cpu_count : Z) (self : Peaks)
    (num_thread chunk_size : Z) :
  (cpu_count - 1 ≤ num_thread)%Z →
  (chunk_size ≤ 0)%Z →
  get_isotopes_from_amrt_multiwrapper cpu_count self num_thread chunk_size
  = Raise (AssertionError "Chunk size must be a positive integer").
Proof.
  intros Hcpu Hchunk. unfold get_isotopes_from_amrt_multiwrapper.
  assert ((num_thread >=? cpu_count - 1)%Z = true) as -> by (apply Z.geb_le; lia).
  assert ((chunk_size >? 0)%Z = false) as ->; [|done].
  apply not_true_is_false. intros Hgt%Z.gtb_lt. lia.
Qed.

Lemma multiwrapper_chunk_size_refused_witness :
  get_isotopes_from_amrt_multiwrapper 2 ex_peaks 1 0
  = Raise (AssertionError "Chunk size must be a positive integer").
Proof. apply (multiwrapper_chunk_size_refused 2 ex_peaks 1 0); lia. Defined.

Lemma mapM_Res_Ok_Forall {A B} (f : A → Res B) (l : list A) (r : list B) :
  mapM f l = Ok r → Forall (λ x, is_Ok (f x)) l.
Proof.
  revert r. induction l as [|x l IH]; intros r; simpl; [by constructor|].
  intros (y & Hy & (r' & Hr' & _)%bind_Ok)%bind_Ok.
  constructor; [by exists y | by eapply IH].
Qed.

(** When task [n + i] returns [g (n + i) row] for the i-th row of a table,
    the ordered map over the row indices returns the rows in table order. *)
Lemma mapM_seq_imap {A B} (f : nat → Res B) (g : nat → A → B) (l : list A) (n : nat) :
  (∀ i row, l !! i = Some row → f (n + i)%nat = Ok (g (n + i)%nat row)) →
  mapM f (seq n (length l)) = Ok (imap (λ i, g (n + i)%nat) l).
Proof.
  revert n. induction l as [|row l IH]; intros n Hf; [done|].
  simpl. pose proof (Hf 0%nat row eq_refl) as Hrow.
  rewrite Nat.add_0_r in Hrow. rewrite Hrow. simpl.
  rewrite (IH (S n)).
  - simpl. unfold mret, Res_ret. rewrite Nat.add_0_r. do 2 f_equal.
    apply imap_ext. intros i x _. simpl. by rewrite Nat.add_succ_r.
  - intros i row' Hi. specialize (Hf (S i) row' Hi).
    by rewrite Nat.add_succ_r in Hf.
Qed.

Lemma multiwrapper_unfold (cpu_count : Z) (self : Peaks) (num_thread chunk_size : Z) :
  (cpu_count - 1 ≤ num_thread)%Z → (1 ≤ num_thread)%Z → (0 < chunk_size)%Z →
  id self ≠ [] →
  get_isotopes_from_amrt_multiwrapper cpu_count self num_thread chunk_size
  = mapM (worker self) (seq 0 (length (id self))).
Proof.
  intros Hcpu Hn Hc Hid. unfold get_isotopes_from_amrt_multiwrapper.
  assert ((num_thread >=? cpu_count - 1)%Z = true) as -> by (apply Z.geb_le; lia).
  assert ((chunk_size >? 0)%Z = true) as -> by (apply Z.gtb_lt; lia).
  simpl. unfold Pool. destruct (decide (num_thread < 1)%Z); [lia|]. simpl.
  by destruct (id self).
Qed.

Lemma multiwrapper_Ok_inv (cpu_count : Z) (self : Peaks) (num_thread chunk_size : Z)
    (result : list (list PyVal)) :
  get_isotopes_from_amrt_multiwrapper cpu_count self num_thread chunk_size = Ok result →
  (cpu_count - 1 ≤ num_thread)%Z ∧ (1 ≤ num_thread)%Z ∧ (0 < chunk_size)%Z
  ∧ id self ≠ [].
Proof.
  unfold get_isotopes_from_amrt_multiwrapper, py_assert, Pool.
  destruct (num_thread >=? cpu_count - 1)%Z eqn:Hge; [|done].
  destruct (chunk_size >? 0)%Z eqn:Hgt; [|done]. simpl.
  destruct (decide (num_thread < 1)%Z); [done|]. simpl.
  destruct (id self); [done|]. intros _.
  apply Z.geb_le in Hge. apply Z.gtb_lt in Hgt. split_and!; [lia..|done].
Qed.

(** X19.  A batch that returns passed both assertions with at least one
    worker on a table that is not empty, and its result has, for every row
    of the table and in table order, the row index and the [pep_id] followed
    by one 0 per requested isotopologue: no batch returns an integrated
    intensity other than 0. *)
Theorem multiwrapper_Ok_rows (cpu_count : Z) (self : Peaks) (num_thread chunk_size : Z)
    (result : list (list PyVal)) :
  get_isotopes_from_amrt_multiwrapper cpu_count self num_thread chunk_size = Ok result →
  (cpu_count - 1 ≤ num_thread)%Z ∧ (1 ≤ num_thread)%Z ∧ (0 < chunk_size)%Z
  ∧ id self ≠ []
  ∧ result = imap (zero_row self) (id self).
Proof.
  intros Hrun.
  destruct (multiwrapper_Ok_inv _ _ _ _ _ Hrun) as (Hcpu & Hn & Hc & Hid).
  split_and!; [done..|].
  rewrite multiwrapper_unfold in Hrun by done.
  pose proof (mapM_Res_Ok_Forall _ _ _ Hrun) as Hall.
  rewrite (mapM_seq_imap (worker self) (zero_row self) (id self) 0) in Hrun.
  - by injection Hrun as <-.
  - intros i row Hrow. simpl.
    assert (is_Ok (worker self i)) as [r Hr].
    { apply (proj1 (Forall_forall _ _) Hall i), elem_of_seq.
      apply lookup_lt_Some in Hrow. lia. }
    destruct (worker_Ok_inv _ _ _ Hr) as (row' & Hrow' & ->).
    rewrite Hrow in Hrow'. by injection Hrow' as <-.
Qed.

Lemma multiwrapper_Ok_rows_witness :
  (2 - 1 ≤ 1)%Z ∧ (1 ≤ 1)%Z ∧ (0 < 50)%Z
  ∧ id (associate_id ex_ms2_only [row_a; row_c]) ≠ []
  ∧ [[VInt 0; VStr "pepA"; VFloat 0; VFloat 0];
     [VInt 1; VStr "pepC"; VFloat 0; VFloat 0]]
    = imap (zero_row (associate_id ex_ms2_only [row_a; row_c]))
        (id (associate_id ex_ms2_only [row_a; row_c])).
Proof.
  apply (multiwrapper_Ok_rows 2 (associate_id ex_ms2_only [row_a; row_c]) 1 50).
  compute_done.
Defined.

(** An index without MS1 scans gives no nearby scan. *)
Lemma nearby_scans_no_ms1 (self : Peaks) (peptide_rt : Qc) :
  (∀ i rt, (i, rt) ∈ rt_idx self →
           ∃ lvl, mslvl_idx self !! i = Some lvl ∧ lvl ≠ 1%Z) →
  nearby_scans self (Some peptide_rt) = Ok [].
Proof.
  unfold nearby_scans. generalize (rt_idx self) as idx.
  induction idx as [|[i rt] idx IH]; intros Hlvl; [done|].
  simpl. unfold mslvl_getitem.
  destruct (Hlvl i rt) as (lvl & Hi & Hne); [by left|]. rewrite Hi.
  rewrite IH by (intros i' rt' Hin; apply (Hlvl i' rt'); by right).
  destruct (decide (Qcabs (rt - peptide_rt) ≤ rt_tolerance self)); simpl; [|done].
  by rewrite bool_decide_eq_false_2.
Qed.

(** X20.  On a scan index that records an MS level other than 1 for every
    scan, a batch whose assertions pass with at least one worker, over a
    table that is not empty and whose rows all have a charge other than 0
    and an indexed scan, returns: one row per table row, in table order,
    each with the row index, the [pep_id] and one 0 per requested
    isotopologue. *)
Theorem multiwrapper_no_ms1 (cpu_count : Z) (self : Peaks) (num_thread chunk_size : Z) :
  (cpu_count - 1 ≤ num_thread)%Z → (1 ≤ num_thread)%Z → (0 < chunk_size)%Z →
  id self ≠ [] →
  (∀ i rt, (i, rt) ∈ rt_idx self →
           ∃ lvl, mslvl_idx self !! i = Some lvl ∧ lvl ≠ 1%Z) →
  Forall (λ row, charge row ≠ 0 ∧ is_Some (dict_get (rt_idx self) (scan row)))
    (id self) →
  get_isotopes_from_amrt_multiwrapper cpu_count self num_thread chunk_size
  = Ok (imap (zero_row self) (id self)).
Proof.
  intros Hcpu Hn Hc Hid Hlvl Hrows.
  rewrite multiwrapper_unfold by done.
  apply (mapM_seq_imap (worker self) (zero_row self) (id self) 0).
  intros i row Hrow. simpl. apply worker_zero_row; [done|].
  assert (charge row ≠ 0 ∧ is_Some (dict_get (rt_idx self) (scan row)))
    as [Hz [peptide_rt Hrt]].
  { apply (proj1 (Forall_forall _ _) Hrows row). by eapply list_elem_of_lookup_2. }
  eapply get_isotopes_from_amrt_no_pair; [done| |by left].
  rewrite Hrt. by apply nearby_scans_no_ms1.
Qed.

Lemma multiwrapper_no_ms1_witness :
  get_isotopes_from_amrt_multiwrapper 2 (associate_id ex_ms2_only [row_a; row_c]) 1 50
  = Ok (imap (zero_row (associate_id ex_ms2_only [row_a; row_c]))
          (id (associate_id ex_ms2_only [row_a; row_c]))).
Proof.
  apply (multiwrapper_no_ms1 2 (associate_id ex_ms2_only [row_a; row_c]) 1 50).
  - lia.
  - lia.
  - lia.
  - discriminate.
  - intros i rt Hin. simpl in Hin.
    apply elem_of_cons in Hin as [[= -> ->]|Hin]; [by exists 2%Z|].
    apply elem_of_cons in Hin as [[= -> ->]|Hin]; [by exists 2%Z|].
    by apply elem_of_nil in Hin.
  - repeat constructor; try compute_done; by eexists.
Defined.

(** ** A row that raises, in a batch *)

(** A batch over a table with a row on which the tracer raises never
    returns, whatever the worker count and the chunk size. *)
Lemma raising_row_never_returns (cpu_count : Z) (self : Peaks)
    (num_thread chunk_size : Z) (index : nat) (row : IdRow) (e : PyErr) :
  id self !! index = Some row →
  get_isotopes_from_amrt self (peptide_mass row) (scan row) (charge row) = Raise e →
  ¬ is_Ok (get_isotopes_from_amrt_multiwrapper cpu_count self num_thread chunk_size).
Proof.
  intros Hrow Htrace [result Hrun].
  destruct (multiwrapper_Ok_inv _ _ _ _ _ Hrun) as (Hcpu & Hn & Hc & Hid).
  rewrite multiwrapper_unfold in Hrun by done.
  apply mapM_Res_Ok_Forall in Hrun.
  assert (is_Ok (worker self index)) as [r Hr].
  { apply (proj1 (Forall_forall _ _) Hrun index), elem_of_seq.
    apply lookup_lt_Some in Hrow. lia. }
  by rewrite (worker_raise _ _ _ _ Hrow Htrace) in Hr.
Qed.

(** C2, amended.  For a row with a charge other than 0 whose scan has no
    indexed retention time, on a scan index that is not empty, the tracer
    raises the [TypeError] of subtracting [None], which is not a
    [LookupError].  Nothing catches it: a batch over a table that holds such
    a row never returns, whatever its arguments; and when both assertions of
    the batch wrapper pass, at least one worker is requested and every
    earlier row is processed normally, the batch raises that same
    [TypeError]. *)
Theorem missing_reference_aborts_batch (cpu_count : Z) (self : Peaks)
    (num_thread chunk_size : Z) (pre post : list IdRow) (row : IdRow) :
  dict_get (rt_idx self) (scan row) = None →
  rt_idx self ≠ [] →
  charge row ≠ 0 →
  get_isotopes_from_amrt self (peptide_mass row) (scan row) (charge row)
  = Raise TypeError_sub_None
  ∧ is_LookupError TypeError_sub_None = false
  ∧ (id self = pre ++ row :: post →
     ¬ is_Ok (get_isotopes_from_amrt_multiwrapper cpu_count self num_thread chunk_size)
     ∧ ((cpu_count - 1 ≤ num_thread)%Z → (1 ≤ num_thread)%Z → (0 < chunk_size)%Z →
        (∀ i, (i < length pre)%nat → is_Ok (worker self i)) →
        get_isotopes_from_amrt_multiwrapper cpu_count self num_thread chunk_size
        = Raise TypeError_sub_None)).
Proof.
  intros Hget Hidx Hz.
  pose proof (get_isotopes_from_amrt_missing_rt self (peptide_mass row) _ _
                Hz Hget Hidx) as Htrace.
  split_and!; [done..|]. intros Hid. split.
  - apply (raising_row_never_returns _ _ _ _ (length pre) row TypeError_sub_None);
      [|done]. rewrite Hid. by apply list_lookup_middle.
  - intros Hcpu Hn Hc Hpre. by eapply tracer_raise_aborts_batch.
Qed.

Lemma missing_reference_aborts_batch_witness :
  get_isotopes_from_amrt ex_ms2_only (peptide_mass row_missing) (scan row_missing)
    (charge row_missing)
  = Raise TypeError_sub_None
  ∧ ¬ is_Ok (get_isotopes_from_amrt_multiwrapper 1
               (associate_id ex_ms2_only [row_a; row_missing; row_c]) 0 50)
  ∧ get_isotopes_from_amrt_multiwrapper 2
      (associate_id ex_ms2_only [row_a; row_missing; row_c]) 1 50
    = Raise TypeError_sub_None.
Proof.
  assert (dict_get (rt_idx ex_ms2_only) (scan row_missing) = None) as Hget
    by reflexivity.
  assert (rt_idx ex_ms2_only ≠ []) as Hidx by discriminate.
  assert (charge row_missing ≠ 0) as Hz by compute_done.
  split_and!.
  - exact (proj1 (missing_reference_aborts_batch 2
             (associate_id ex_ms2_only [row_a; row_missing; row_c]) 1 50
             [row_a] [row_c] row_missing Hget Hidx Hz)).
  - apply (missing_reference_aborts_batch 1
             (associate_id ex_ms2_only [row_a; row_missing; row_c]) 0 50
             [row_a] [row_c] row_missing Hget Hidx Hz).
    reflexivity.
  - apply (missing_reference_aborts_batch 2
             (associate_id ex_ms2_only [row_a; row_missing; row_c]) 1 50
             [row_a] [row_c] row_missing Hget Hidx Hz); [reflexivity | lia..|].
    intros i Hi. assert (i = 0%nat) as -> by (simpl in Hi; lia).
    eexists. vm_compute. reflexivity.
Defined.

(** C4, amended.  For a row with charge 0 the tracer raises
    [ZeroDivisionError]: the division in the precursor m/z is executed
    without a guard, whatever the mass and the scan.  Nothing catches the
    error: a batch over a table that holds such a row never returns, whatever
    its arguments; and when both assertions of the batch wrapper pass, at
    least one worker is requested and every earlier row is processed
    normally, the batch raises that same [ZeroDivisionError]. *)
Theorem zero_charge_aborts_batch (cpu_count : Z) (self : Peaks)
    (num_thread chunk_size : Z) (pre post : list IdRow) (row : IdRow) :
  charge row = 0 →
  get_isotopes_from_amrt self (peptide_mass row) (scan row) (charge row)
  = Raise ZeroDivisionError_float
  ∧ (id self = pre ++ row :: post →
     ¬ is_Ok (get_isotopes_from_amrt_multiwrapper cpu_count self num_thread chunk_size)
     ∧ ((cpu_count - 1 ≤ num_thread)%Z → (1 ≤ num_thread)%Z → (0 < chunk_size)%Z →
        (∀ i, (i < length pre)%nat → is_Ok (worker self i)) →
        get_isotopes_from_amrt_multiwrapper cpu_count self num_thread chunk_size
        = Raise ZeroDivisionError_float)).
Proof.
  intros Hz.
  assert (get_isotopes_from_amrt self (peptide_mass row) (scan row) (charge row)
          = Raise ZeroDivisionError_float) as Htrace.
  { rewrite Hz. apply get_isotopes_from_amrt_zero_charge. }
  split; [done|]. intros Hid. split.
  - apply (raising_row_never_returns _ _ _ _ (length pre) row ZeroDivisionError_float);
      [|done]. rewrite Hid. by apply list_lookup_middle.
  - intros Hcpu Hn Hc Hpre. by eapply tracer_raise_aborts_batch.
Qed.

Lemma zero_charge_aborts_batch_witness :
  get_isotopes_from_amrt ex_ms2_only (peptide_mass row_zero) (scan row_zero)
    (charge row_zero)
  = Raise ZeroDivisionError_float
  ∧ ¬ is_Ok (get_isotopes_from_amrt_multiwrapper 1
               (associate_id ex_ms2_only [row_a; row_zero; row_c]) 0 50)
  ∧ get_isotopes_from_amrt_multiwrapper 2
      (associate_id ex_ms2_only [row_a; row_zero; row_c]) 1 50
    = Raise ZeroDivisionError_float.
Proof.
  assert (charge row_zero = 0) as Hz by reflexivity.
  split_and!.
  - exact (proj1 (zero_charge_aborts_batch 2
             (associate_id ex_ms2_only [row_a; row_zero; row_c]) 1 50
             [row_a] [row_c] row_zero Hz)).
  - apply (zero_charge_aborts_batch 1
             (associate_id ex_ms2_only [row_a; row_zero; row_c]) 0 50
             [row_a] [row_c] row_zero Hz).
    reflexivity.
  - apply (zero_charge_aborts_batch 2
             (associate_id ex_ms2_only [row_a; row_zero; row_c]) 1 50
             [row_a] [row_c] row_zero Hz); [reflexivity | lia..|].
    intros i Hi. assert (i = 0%nat) as -> by (simpl in Hi; lia).
    eexists. vm_compute. reflexivity.
Defined.

(** * The rounding steps in binary64 *)

(** ** Comparisons of floats *)

Lemma SFcompare_refl (f : spec_float) :
  f ≠ S754_nan → SFcompare f f = Some Eq.
Proof.
  destruct f as [s|s| |s m e]; simpl; try congruence.
  - intros _. by destruct s.
  - intros _. rewrite Z.compare_refl.
    change (Pos.compare_cont Eq m m) with (Pos.compare m m).
    rewrite Pos.compare_refl. by destruct s.
Qed.

Lemma SFcompare_antisym (f g : spec_float) (c : comparison) :
  SFcompare f g = Some c → SFcompare g f = Some (CompOpp c).
Proof.
  destruct f as [s|s| |s m e], g as [s'|s'| |s' m' e']; simpl; try congruence;
    try (destruct s; intros [= <-]; done); try (destruct s'; intros [= <-]; done);
    try (destruct s, s'; intros [= <-]; done).
  change (Pos.compare_cont Eq m' m) with (Pos.compare m' m).
  change (Pos.compare_cont Eq m m') with (Pos.compare m m').
  rewrite (Z.compare_antisym e e'), (Pos.compare_antisym m m').
  destruct s, s'; intros [= <-]; try done;
    destruct (e ?= e')%Z; simpl; try done;
    destruct (m ?= m')%positive; done.
Qed.

Lemma ltb_leb_false (x y : float) : (x <? y)%float = true → (y <=? x)%float = false.
Proof.
  rewrite FloatAxioms.ltb_spec, FloatAxioms.leb_spec. unfold SFltb, SFleb.
  destruct (SFcompare (Prim2SF x) (Prim2SF y)) as [[]|] eqn:Hc; try done.
  intros _. by rewrite (SFcompare_antisym _ _ _ Hc).
Qed.

Lemma eqb_leb (x y : float) : (x =? y)%float = true → (x <=? y)%float = true.
Proof.
  rewrite FloatAxioms.eqb_spec, FloatAxioms.leb_spec. unfold SFeqb, SFleb.
  by destruct (SFcompare (Prim2SF x) (Prim2SF y)) as [[]|].
Qed.


(** A float that is not below 0 is at or above 0, or is NaN. *)
Lemma not_ltb_zero (r : float) :
  (r <? 0)%float = false → (0 <=? r)%float = true ∨ is_nan r = true.
Proof.
  unfold is_nan. rewrite FloatAxioms.ltb_spec, FloatAxioms.leb_spec, FloatAxioms.eqb_spec. unfold SFltb, SFleb, SFeqb.
  change (Prim2SF 0%float) with (S754_zero false).
  destruct (Prim2SF r) as [s|s| |s m e]; simpl; try destruct s; auto; done.
Qed.

(** NaN is below nothing. *)
Lemma is_nan_ltb_false (a b : float) : is_nan a = true → (a <? b)%float = false.
Proof.
  unfold is_nan. rewrite FloatAxioms.eqb_spec, FloatAxioms.ltb_spec.
  unfold SFeqb, SFltb. destruct (Prim2SF a) as [s|s| |s m e] eqn:Ha; [| |done|].
  - by rewrite SFcompare_refl.
  - by rewrite SFcompare_refl.
  - by rewrite SFcompare_refl.
Qed.

(** ** The retention-time window *)

Lemma filterM_total {A} (c : A → Res bool) (l : list A) :
  Forall (λ x, is_Ok (c x)) l →
  filterM c l = Ok (filter (λ x, c x = Ok true) l).
Proof.
  induction 1 as [|x l [b Hb] _ IH]; [done|].
  simpl. rewrite Hb, IH. simpl. rewrite filter_cons, Hb.
  unfold mret, Res_ret. destruct b; by case_decide.
Qed.

Lemma nearby_cond_b64_true (self : B64.Peaks) (peptide_rt : float) (i : Z) (rt : float) :
  B64.nearby_cond self (Some peptide_rt) (i, rt) = Ok true ↔
  (abs (rt - peptide_rt) <=? B64.rt_tolerance self)%float = true
  ∧ B64.mslvl_idx self !! i = Some 1%Z.
Proof.
  unfold B64.nearby_cond, B64.mslvl_getitem. simpl.
  destruct (abs (rt - peptide_rt) <=? B64.rt_tolerance self)%float.
  - destruct (B64.mslvl_idx self !! i) as [lvl|]; simpl.
    + unfold mret, Res_ret. split.
      * intros [= Hlvl%bool_decide_eq_true]. by rewrite Hlvl.
      * by intros [_ [= ->]].
    + split; [done|]. by intros [_ [=]].
  - split; [done|]. by intros [[=] _].
Qed.

Lemma nearby_cond_b64_is_Ok (self : B64.Peaks) (peptide_rt : float) (i : Z) (rt : float) :
  ((abs (rt - peptide_rt) <=? B64.rt_tolerance self)%float = true →
   is_Some (B64.mslvl_idx self !! i)) →
  is_Ok (B64.nearby_cond self (Some peptide_rt) (i, rt)).
Proof.
  intros Hlvl. unfold B64.nearby_cond, B64.mslvl_getitem. simpl.
  destruct (abs (rt - peptide_rt) <=? B64.rt_tolerance self)%float; [|by eexists].
  destruct (Hlvl eq_refl) as [lvl ->]. by eexists.
Qed.

(** C8, amended.  With a reference retention time, and an MS level recorded
    for every scan that passes the test on the retention time, the
    comprehension returns, in index order, exactly the indexed scans of MS
    level 1 for which the binary64 value of [abs(rt - peptide_rt)] is at
    most [rt_tolerance]: a scan whose computed difference equals
    [rt_tolerance] is kept, one whose computed difference is greater is
    dropped. *)
Theorem nearby_scans_window_b64 (self : B64.Peaks) (peptide_rt : float) :
  (∀ i rt, (i, rt) ∈ B64.rt_idx self →
           (abs (rt - peptide_rt) <=? B64.rt_tolerance self)%float = true →
           is_Some (B64.mslvl_idx self !! i)) →
  ∃ nearby,
    B64.nearby_scans self (Some peptide_rt) = Ok nearby
    ∧ nearby `sublist_of` B64.rt_idx self
    ∧ (∀ i rt, (i, rt) ∈ nearby ↔
         (i, rt) ∈ B64.rt_idx self ∧ B64.mslvl_idx self !! i = Some 1%Z
         ∧ (abs (rt - peptide_rt) <=? B64.rt_tolerance self)%float = true)
    ∧ (∀ i rt, (i, rt) ∈ B64.rt_idx self → B64.mslvl_idx self !! i = Some 1%Z →
         (abs (rt - peptide_rt) =? B64.rt_tolerance self)%float = true →
         (i, rt) ∈ nearby)
    ∧ (∀ i rt, (B64.rt_tolerance self <? abs (rt - peptide_rt))%float = true →
         (i, rt) ∉ nearby).
Proof.
  intros Hlvl.
  exists (filter (λ item, B64.nearby_cond self (Some peptide_rt) item = Ok true)
            (B64.rt_idx self)).
  assert (∀ i rt,
    (i, rt) ∈ filter (λ item, B64.nearby_cond self (Some peptide_rt) item = Ok true)
                (B64.rt_idx self) ↔
    (i, rt) ∈ B64.rt_idx self ∧ B64.mslvl_idx self !! i = Some 1%Z
    ∧ (abs (rt - peptide_rt) <=? B64.rt_tolerance self)%float = true) as Hmem.
  { intros i rt. rewrite list_elem_of_filter, nearby_cond_b64_true. tauto. }
  split_and!.
  - unfold B64.nearby_scans. apply filterM_total, Forall_forall.
    intros [i rt] Hin. apply nearby_cond_b64_is_Ok. by apply Hlvl.
  - apply sublist_filter.
  - exact Hmem.
  - intros i rt Hin Hms1 Heq. apply Hmem. split_and!; [done..|]. by apply eqb_leb.
  - intros i rt Hfar (_ & _ & Hle)%Hmem. apply ltb_leb_false in Hfar. congruence.
Qed.

Lemma nearby_scans_window_b64_witness :
  ∃ nearby,
    B64.nearby_scans ex_rounding (Some 32%float) = Ok nearby
    ∧ nearby `sublist_of` B64.rt_idx ex_rounding.
Proof.
  destruct (nearby_scans_window_b64 ex_rounding 32%float) as (nearby & Hrun & Hsub & _).
  - intros i rt Hin _. simpl in Hin.
    apply elem_of_cons in Hin as [[= -> ->]|Hin]; [by eexists|].
    apply elem_of_cons in Hin as [[= -> ->]|Hin]; [by eexists|].
    by apply elem_of_nil in Hin.
  - exists nearby. by split.
Defined.

(** C8, as stated, fails.  The scan at retention time 2 - 2^-52 differs from
    the reference 32.0 by 30 + 2^-52, strictly more than the tolerance 30;
    the subtraction rounds to 30.0 and the scan is kept. *)
Lemma nearby_scans_window_counterexample :
  B64.nearby_scans ex_rounding (dict_get (B64.rt_idx ex_rounding) 2)
  = Ok [(1%Z, 0x1.fffffffffffffp+0%float)]
  ∧ exact 0x1.fffffffffffffp+0%float = Some (dec 9007199254740991 4503599627370496)
  ∧ exact 32%float = Some (dec 32 1)
  ∧ exact (B64.rt_tolerance ex_rounding) = Some (dec 30 1)
  ∧ dec 30 1 < Qcabs (dec 9007199254740991 4503599627370496 - dec 32 1).
Proof. split_and!; [reflexivity | compute_done..]. Qed.

(** ** The mass tolerance band *)






(** ** The floor of the integrated area *)

Lemma py_max2_b64_zero (a : float) :
  (B64.py_max2 a 0 <? 0)%float = false
  ∧ ((a <? 0)%float = true → B64.py_max2 a 0 = 0%float).
Proof.
  unfold B64.py_max2. destruct (a <? 0)%float eqn:Ha; [by split|].
  split; [exact Ha | done].
Qed.

Lemma iso_area_b64_not_negative (trapz : list float → list float → float)
    (self : B64.Peaks) (j : Z) :
  (B64.iso_area trapz self j <? 0)%float = false.
Proof.
  unfold B64.iso_area. destruct (B64.isotopomer_profile _ j); [done|].
  apply py_max2_b64_zero.
Qed.

Lemma iso_area_b64_floor (trapz : list float → list float → float)
    (self : B64.Peaks) (j : Z) :
  (B64.raw_area trapz self j <? 0)%float = true → B64.iso_area trapz self j = 0%float.
Proof.
  unfold B64.raw_area, B64.iso_area. destruct (B64.isotopomer_profile _ j); [done|].
  apply py_max2_b64_zero.
Qed.

Lemma integrate_isotope_intensity_b64_map (trapz : list float → list float → float)
    (self : B64.Peaks) :
  B64.integrate_isotope_intensity trapz self
  = B64.iso_area trapz self <$> B64.iso_to_do self.
Proof. unfold B64.integrate_isotope_intensity. by rewrite append_loop_map. Qed.

Lemma iso_area_b64_nan (trapz : list float → list float → float)
    (self : B64.Peaks) (j : Z) :
  B64.isotopomer_profile (B64.intensity_over_time self) j ≠ [] →
  is_nan (B64.raw_area trapz self j) = true →
  B64.iso_area trapz self j = B64.raw_area trapz self j.
Proof.
  unfold B64.raw_area, B64.iso_area.
  destruct (B64.isotopomer_profile _ j) as [|p profile]; [done|].
  intros _ Hnan. unfold B64.py_max2. by rewrite is_nan_ltb_false.
Qed.

(** C6, amended.  Whatever the numeric integration returns, the vector
    returned by the integrator has one entry per requested isotopologue and
    no entry is below 0: each is at or above 0, or is NaN; whenever the raw
    trapezoidal area of an isotopologue is below 0, its entry in the returned
    vector is 0; and a NaN raw area of an isotopologue that has samples is
    returned as it is. *)
Theorem integrate_isotope_intensity_not_negative
    (trapz : list float → list float → float) (self : B64.Peaks) :
  length (B64.integrate_isotope_intensity trapz self) = length (B64.iso_to_do self)
  ∧ (∀ k r, B64.integrate_isotope_intensity trapz self !! k = Some r →
       (r <? 0)%float = false
       ∧ ((0 <=? r)%float = true ∨ is_nan r = true))
  ∧ (∀ k j, B64.iso_to_do self !! k = Some j →
       (B64.raw_area trapz self j <? 0)%float = true →
       B64.integrate_isotope_intensity trapz self !! k = Some 0%float)
  ∧ (∀ k j, B64.iso_to_do self !! k = Some j →
       B64.isotopomer_profile (B64.intensity_over_time self) j ≠ [] →
       is_nan (B64.raw_area trapz self j) = true →
       B64.integrate_isotope_intensity trapz self !! k
       = Some (B64.raw_area trapz self j)).
Proof.
  rewrite integrate_isotope_intensity_b64_map. split_and!.
  - by rewrite length_fmap.
  - intros k r Hr. apply list_lookup_fmap_Some in Hr as (j & -> & _).
    pose proof (iso_area_b64_not_negative trapz self j) as Hnot.
    split; [done|]. by apply not_ltb_zero.
  - intros k j Hj Hneg. rewrite list_lookup_fmap, Hj. simpl.
    by rewrite iso_area_b64_floor.
  - intros k j Hj Hsamples Hnan. rewrite list_lookup_fmap, Hj. simpl.
    by rewrite iso_area_b64_nan.
Qed.

Lemma integrate_isotope_intensity_not_negative_witness :
  B64.raw_area B64.trapz ex_unsorted 0 = (-41.5)%float
  ∧ B64.integrate_isotope_intensity B64.trapz ex_unsorted !! 0%nat = Some 0%float.
Proof.
  split; [reflexivity|].
  destruct (integrate_isotope_intensity_not_negative B64.trapz ex_unsorted)
    as (_ & _ & Hfloor & _).
  apply (Hfloor 0%nat 0%Z); reflexivity.
Defined.

(** C6, as stated, fails.  Two samples at the same retention time with the
    finite intensity 1.5e308: their sum overflows to infinity, the time step
    is 0, the product is NaN, and [max(nan, 0)] returns the NaN, which is
    not at or above 0. *)
Lemma integrate_isotope_intensity_nonneg_counterexample :
  is_finite 0x1.ab36d48e1acfp+1023%float = true
  ∧ B64.integrate_isotope_intensity B64.trapz ex_overflow = [nan]
  ∧ (0 <=? nan)%float = false.
Proof. split_and!; reflexivity. Qed.
